(** * Smart Warehouse Reordering System: the reorder decision engine

    A shallow embedding of [server/server.js]: the four calculation helpers,
    the [/api/reorder-analysis] handler (per-product analysis and the ranking
    sort) and the [/api/simulate-demand-spike] handler (validation, lookup,
    projection and the response object), followed by the properties the
    specification states about them.

    Numbers.  A JavaScript Number is modelled by [num]: an exact rational, or
    one of the special values [Infinity], [-Infinity] and [NaN], with the
    arithmetic IEEE 754 prescribes for them (division by zero, [0 * Infinity],
    comparisons with [NaN], ...).  Finite arithmetic is exact: the rounding
    error of binary64 and the sign of zero are not represented, and the
    properties stated over [num] are those that hold of the code operation
    by operation.  Where rounding decides the result, the cost computation
    is evaluated in [Binary64], over the machine's own numbers. *)

From Stdlib Require Import ZArith QArith Qcanon Qround.
From Stdlib Require Import List String Bool Lia Lqa Permutation Sorted.
From Stdlib Require Floats Uint63.
Import ListNotations.

Local Open Scope Qc_scope.

(** ** JavaScript numbers *)

Module JS.

Inductive num : Type :=
| Fin (q : Qc)
| PInf
| NInf
| NaN.

(** A decimal literal: [dec 32 10] is [3.2]. *)
Definition dec (n : Z) (d : positive) : num := Fin (Q2Qc (n # d)).

(** An integer as a rational, and as a number. *)
Definition ofZ (k : Z) : Qc := Q2Qc (inject_Z k).
Definition int (n : Z) : num := Fin (ofZ n).

Definition Qc_leb (a b : Qc) : bool := Qle_bool a b.
Definition Qc_ltb (a b : Qc) : bool := negb (Qle_bool b a).
Definition Qc_eqb (a b : Qc) : bool := Qeq_bool a b.

Inductive sign : Type := Neg | Zero | Pos.

Definition Qc_sign (q : Qc) : sign :=
  match q ?= 0 with
  | Lt => Neg
  | Eq => Zero
  | Gt => Pos
  end.

Definition neg (x : num) : num :=
  match x with
  | Fin q => Fin (- q)
  | PInf => NInf
  | NInf => PInf
  | NaN => NaN
  end.

(** [x + y] *)
Definition add (x y : num) : num :=
  match x, y with
  | NaN, _ | _, NaN => NaN
  | Fin a, Fin b => Fin (a + b)
  | PInf, NInf | NInf, PInf => NaN
  | PInf, _ | _, PInf => PInf
  | NInf, _ | _, NInf => NInf
  end.

(** [x - y] *)
Definition sub (x y : num) : num := add x (neg y).

(** An infinity scaled by a finite factor of sign [s]. *)
Definition scale_inf (positive_inf : bool) (s : sign) : num :=
  match s with
  | Zero => NaN
  | Pos => if positive_inf then PInf else NInf
  | Neg => if positive_inf then NInf else PInf
  end.

(** [x * y] *)
Definition mul (x y : num) : num :=
  match x, y with
  | NaN, _ | _, NaN => NaN
  | Fin a, Fin b => Fin (a * b)
  | Fin a, PInf | PInf, Fin a => scale_inf true (Qc_sign a)
  | Fin a, NInf | NInf, Fin a => scale_inf false (Qc_sign a)
  | PInf, PInf | NInf, NInf => PInf
  | PInf, NInf | NInf, PInf => NInf
  end.

(** [x / y]; a zero divisor is the positive zero. *)
Definition div (x y : num) : num :=
  match x, y with
  | NaN, _ | _, NaN => NaN
  | Fin a, Fin b =>
      if Qc_eqb b 0 then scale_inf true (Qc_sign a) else Fin (a / b)
  | Fin _, PInf | Fin _, NInf => Fin 0
  | PInf, Fin b => if Qc_ltb b 0 then NInf else PInf
  | NInf, Fin b => if Qc_ltb b 0 then PInf else NInf
  | PInf, _ | NInf, _ => NaN
  end.

(** [x <= y], [x < y], [x >= y], [x === y]: false as soon as a side is NaN. *)
Definition leb (x y : num) : bool :=
  match x, y with
  | NaN, _ | _, NaN => false
  | Fin a, Fin b => Qc_leb a b
  | NInf, _ => true
  | _, PInf => true
  | _, _ => false
  end.

Definition ltb (x y : num) : bool :=
  match x, y with
  | NaN, _ | _, NaN => false
  | Fin a, Fin b => Qc_ltb a b
  | PInf, _ => false
  | _, NInf => false
  | _, _ => true
  end.

Definition geb (x y : num) : bool := leb y x.

Definition eqb (x y : num) : bool :=
  match x, y with
  | Fin a, Fin b => Qc_eqb a b
  | PInf, PInf | NInf, NInf => true
  | _, _ => false
  end.

(** [!x] is true of [0] and [NaN]. *)
Definition truthy (x : num) : bool :=
  match x with
  | Fin q => negb (Qc_eqb q 0)
  | NaN => false
  | PInf | NInf => true
  end.

(** The integer part: the integer [k] with [k <= q < k + 1]. *)
Definition Qc_floor (q : Qc) : Qc := ofZ (Qfloor q).

(** [Math.floor(x)] *)
Definition Math_floor (x : num) : num :=
  match x with
  | Fin q => Fin (Qc_floor q)
  | other => other
  end.

(** [Math.round(x)]: the nearest integer, a tie going towards +Infinity. *)
Definition Math_round (x : num) : num :=
  match x with
  | Fin q => Fin (Qc_floor (q + Q2Qc (1 # 2)))
  | other => other
  end.

(** [Math.max(x, y)] *)
Definition Math_max (x y : num) : num :=
  match x, y with
  | NaN, _ | _, NaN => NaN
  | _, _ => if leb x y then y else x
  end.

Definition is_finite (x : num) : Prop :=
  match x with Fin _ => True | _ => False end.

(** What a script can hold in a property: here a number or a string. *)
Inductive value : Type :=
| VNum (n : num)
| VStr (s : string).

(** [JSON.stringify] of a property: a non-finite number becomes [null]. *)
Inductive json : Type :=
| JNumber (q : Qc)
| JString (s : string)
| JNull.

Definition stringify_num (n : num) : json :=
  match n with
  | Fin q => JNumber q
  | _ => JNull
  end.

Definition stringify (v : value) : json :=
  match v with
  | VNum n => stringify_num n
  | VStr s => JString s
  end.

End JS.
Import JS.

(** ** The product schema *)

Inductive Criticality : Type := high | medium | low.

(** A document of the [Product] collection ([productSchema]). *)
Record Product : Type := mkProduct {
  productId : string;
  name : string;
  currentStock : num;
  averageDailySales : num;
  supplierLeadTime : num;
  minimumReorderQuantity : num;
  costPerUnit : num;
  criticality : Criticality;
  lastUpdated : Z
}.

(** ** Helper functions for calculations *)

Definition calculateDaysOfStockRemaining (currentStock averageDailySales : num) : num :=
  if eqb averageDailySales (int 0) then PInf
  else Math_floor (div currentStock averageDailySales).

Definition default_bufferDays : num := int 5.

Definition calculateSafetyStockThreshold (supplierLeadTime bufferDays : num) : num :=
  add supplierLeadTime bufferDays.

Definition calculateOptimalReorderQuantity
    (averageDailySales targetDays currentStock : num) : num :=
  let targetStock := mul averageDailySales targetDays in
  Math_max (int 0) (sub targetStock currentStock).

Definition needsReorder (daysRemaining safetyThreshold : num) : bool :=
  leb daysRemaining safetyThreshold.

(** The idiom [Math.round(x * 100) / 100] the handlers use for two decimals. *)
Definition round2 (x : num) : num :=
  div (Math_round (mul x (int 100))) (int 100).

(** [daysRemaining === Infinity ? 'Unlimited' : daysRemaining] *)
Definition tagUnlimited (daysRemaining : num) : value :=
  if eqb daysRemaining PInf then VStr "Unlimited" else VNum daysRemaining.

(** ** GET /api/reorder-analysis *)

Module Analysis.

(** One element of the response: the product's own fields (the spread of
    [product.toObject()]) and the five derived ones. *)
Record t : Type := mk {
  product : Product;
  daysRemaining : value;
  safetyThreshold : num;
  needsReorder : bool;
  optimalReorderQuantity : num;
  estimatedCost : num
}.

End Analysis.

(** The body of [products.map(product => ...)]. *)
Definition analyze (product : Product) : Analysis.t :=
  let daysRemaining :=
    calculateDaysOfStockRemaining (currentStock product) (averageDailySales product) in
  let safetyThreshold :=
    calculateSafetyStockThreshold (supplierLeadTime product) default_bufferDays in
  let needsReorderFlag := needsReorder daysRemaining safetyThreshold in
  let optimalQuantity :=
    if needsReorderFlag
    then Math_max
           (calculateOptimalReorderQuantity
              (averageDailySales product) (int 60) (currentStock product))
           (minimumReorderQuantity product)
    else int 0 in
  let estimatedCost := round2 (mul optimalQuantity (costPerUnit product)) in
  Analysis.mk product (tagUnlimited daysRemaining) safetyThreshold
              needsReorderFlag optimalQuantity estimatedCost.

(** [criticalityOrder = { high: 3, medium: 2, low: 1 }] *)
Definition criticalityOrder (c : Criticality) : Z :=
  match c with
  | high => 3
  | medium => 2
  | low => 1
  end.

(** The comparator handed to [analysis.sort]. *)
Definition comparator (a b : Analysis.t) : Z :=
  if Analysis.needsReorder a && negb (Analysis.needsReorder b) then (-1)%Z
  else if negb (Analysis.needsReorder a) && Analysis.needsReorder b then 1%Z
  else (criticalityOrder (criticality (Analysis.product b))
        - criticalityOrder (criticality (Analysis.product a)))%Z.

(** [Array.prototype.sort] is a stable sort: an element moves in front of
    another only when the comparator says it is strictly smaller.  It is
    modelled by the insertion sort that keeps this promise. *)
Section ArraySort.

Context {A : Type} (compare : A -> A -> Z).

Fixpoint insert (x : A) (l : list A) : list A :=
  match l with
  | [] => [x]
  | y :: l' =>
      if (compare x y <=? 0)%Z then x :: y :: l' else y :: insert x l'
  end.

Fixpoint Array_sort (l : list A) : list A :=
  match l with
  | [] => []
  | x :: l' => insert x (Array_sort l')
  end.

End ArraySort.

(** [analysis.sort(...)] over [products.map(...)]. *)
Definition analyzeAll (products : list Product) : list Analysis.t :=
  Array_sort comparator (map analyze products).

(** ** The record store and the HTTP responses *)

(** An awaited query either returns or rejects with an error. *)
Inductive Query (A : Type) : Type :=
| Returned (result : A)
| Thrown (message : string).
Arguments Returned {A} result.
Arguments Thrown {A} message.

Inductive Response (A : Type) : Type :=
| Status200 (body : A)
| Status400 (message : string)
| Status404 (message : string)
| Status500 (message : string).
Arguments Status200 {A} body.
Arguments Status400 {A} message.
Arguments Status404 {A} message.
Arguments Status500 {A} message.

(** The handler of [GET /api/reorder-analysis], given the outcome of
    [Product.find()]. *)
Definition reorderAnalysis (find : Query (list Product)) : Response (list Analysis.t) :=
  match find with
  | Returned products => Status200 (analyzeAll products)
  | Thrown message => Status500 message
  end.

(** [Product.findOne({ productId })] over a collection that answers. *)
Fixpoint findOne (collection : list Product) (id : string) : option Product :=
  match collection with
  | [] => None
  | p :: rest => if String.eqb (productId p) id then Some p else findOne rest id
  end.

(** ** POST /api/simulate-demand-spike *)

(** The three properties read from [req.body]; an absent one is [undefined]. *)
Record SpikeRequest : Type := mkRequest {
  body_productId : option string;
  body_spikeMultiplier : option num;
  body_spikeDuration : option num
}.

(** [!productId] and [!spikeMultiplier]: [undefined], the empty string, [0]
    and [NaN] are falsy. *)
Definition not_string (s : option string) : bool :=
  match s with
  | None => true
  | Some s => String.eqb s ""
  end.

Definition not_number (n : option num) : bool :=
  match n with
  | None => true
  | Some n => negb (truthy n)
  end.

(** The consts of the handler, in the order it computes them. *)
Section Projection.

Variable product : Product.
Variables spikeMultiplier spikeDuration : num.

Definition normalDailySales : num := averageDailySales product.
Definition spikedDailySales : num := mul normalDailySales spikeMultiplier.
Definition totalSpikeConsumption : num := mul spikedDailySales spikeDuration.

Definition stockAfterSpike : num :=
  Math_max (int 0) (sub (currentStock product) totalSpikeConsumption).

Definition totalDays : num := int 30.
Definition normalPeriod : num := Math_max (int 0) (sub totalDays spikeDuration).

Definition newAverageDailySales : num :=
  if geb spikeDuration totalDays
  then spikedDailySales
  else div (add (mul normalDailySales normalPeriod)
                (mul spikedDailySales spikeDuration))
           totalDays.

Definition spike_daysRemaining : num :=
  calculateDaysOfStockRemaining stockAfterSpike newAverageDailySales.

Definition spike_safetyThreshold : num :=
  calculateSafetyStockThreshold (supplierLeadTime product) default_bufferDays.

Definition spike_needsReorderFlag : bool :=
  needsReorder spike_daysRemaining spike_safetyThreshold.

Definition spike_optimalQuantity : num :=
  if spike_needsReorderFlag
  then Math_max
         (calculateOptimalReorderQuantity newAverageDailySales (int 60) stockAfterSpike)
         (minimumReorderQuantity product)
  else int 0.

End Projection.

Module Original.

Record t : Type := mk {
  currentStock : num;
  averageDailySales : num;
  daysRemaining : value
}.

End Original.

Module AfterSpike.

Record t : Type := mk {
  stockAfterSpike : num;
  newAverageDailySales : num;
  daysRemaining : value;
  needsReorder : bool;
  optimalReorderQuantity : num;
  estimatedCost : num
}.

End AfterSpike.

Module SpikeDetails.

Record t : Type := mk {
  spikeMultiplier : num;
  spikeDuration : num;
  totalConsumptionDuringSpike : num;
  stockDepletion : num
}.

End SpikeDetails.

Module Simulation.

Record t : Type := mk {
  productName : string;
  original : Original.t;
  afterSpike : AfterSpike.t;
  spikeDetails : SpikeDetails.t
}.

End Simulation.

(** The [simulation] object literal. *)
Definition simulation (product : Product) (spikeMultiplier spikeDuration : num)
  : Simulation.t :=
  let daysRemaining := spike_daysRemaining product spikeMultiplier spikeDuration in
  let optimalQuantity := spike_optimalQuantity product spikeMultiplier spikeDuration in
  Simulation.mk
    (name product)
    (Original.mk
       (currentStock product)
       (round2 (normalDailySales product))
       (VNum (calculateDaysOfStockRemaining
                (currentStock product) (normalDailySales product))))
    (AfterSpike.mk
       (round2 (stockAfterSpike product spikeMultiplier spikeDuration))
       (round2 (newAverageDailySales product spikeMultiplier spikeDuration))
       (tagUnlimited daysRemaining)
       (spike_needsReorderFlag product spikeMultiplier spikeDuration)
       optimalQuantity
       (round2 (mul optimalQuantity (costPerUnit product))))
    (SpikeDetails.mk
       spikeMultiplier
       spikeDuration
       (round2 (totalSpikeConsumption product spikeMultiplier spikeDuration))
       (round2 (mul (div (totalSpikeConsumption product spikeMultiplier spikeDuration)
                         (currentStock product))
                    (int 100)))).

(** The handler, given how [Product.findOne] answers.  The two guards run
    before the lookup; a rejected lookup reaches the [catch] clause. *)
Definition simulateDemandSpike
    (Product_findOne : string -> Query (option Product)) (body : SpikeRequest)
  : Response Simulation.t :=
  if not_string (body_productId body)
     || not_number (body_spikeMultiplier body)
     || not_number (body_spikeDuration body)
  then Status400 "Missing required fields: productId, spikeMultiplier, spikeDuration"
  else
    match body_productId body, body_spikeMultiplier body, body_spikeDuration body with
    | Some productId, Some spikeMultiplier, Some spikeDuration =>
        if leb spikeMultiplier (int 0) || leb spikeDuration (int 0)
        then Status400 "spikeMultiplier and spikeDuration must be positive numbers"
        else
          match Product_findOne productId with
          | Thrown message => Status500 message
          | Returned None => Status404 "Product not found"
          | Returned (Some product) =>
              Status200 (simulation product spikeMultiplier spikeDuration)
          end
    | _, _, _ =>
        Status400 "Missing required fields: productId, spikeMultiplier, spikeDuration"
    end.

(** What [res.json] writes for the days-remaining properties. *)
Definition serialized_original_daysRemaining (s : Simulation.t) : json :=
  stringify (Original.daysRemaining (Simulation.original s)).

Definition serialized_afterSpike_daysRemaining (s : Simulation.t) : json :=
  stringify (AfterSpike.daysRemaining (Simulation.afterSpike s)).

Definition serialized_stockDepletion (s : Simulation.t) : json :=
  stringify_num (SpikeDetails.stockDepletion (Simulation.spikeDetails s)).

Definition serialized_analysis_daysRemaining (a : Analysis.t) : json :=
  stringify (Analysis.daysRemaining a).

(** A store that answers every lookup from its collection. *)
Definition answering (collection : list Product) (id : string)
  : Query (option Product) :=
  Returned (findOne collection id).

(** ** GET /api/health *)

(** The object literal [dbStatusText]; a key it does not hold reads
    [undefined]. *)
Definition dbStatusText (dbStatus : Z) : option string :=
  match dbStatus with
  | 0%Z => Some "disconnected"%string
  | 1%Z => Some "connected"%string
  | 2%Z => Some "connecting"%string
  | 3%Z => Some "disconnecting"%string
  | _ => None
  end.

(** [dbStatusText[dbStatus] || 'unknown'] *)
Definition database_status (dbStatus : Z) : string :=
  match dbStatusText dbStatus with
  | Some text => if String.eqb text "" then "unknown" else text
  | None => "unknown"
  end.

(** ** The dashboard and the analysis page *)

(** [reorderData.filter(p => p.needsReorder).slice(0, 3)], the "Urgent
    Reorders" of the dashboard. *)
Definition urgentReorders (reorderData : list Analysis.t) : list Analysis.t :=
  firstn 3 (filter Analysis.needsReorder reorderData).

Module Summary.

Record t : Type := mk {
  totalProducts : nat;
  needsReorder : nat;
  totalReorderCost : num;
  criticalReorders : nat
}.

End Summary.

(** The [summary] of the analysis page. *)
Definition summary (reorderData : list Analysis.t) : Summary.t :=
  Summary.mk
    (List.length reorderData)
    (List.length (filter Analysis.needsReorder reorderData))
    (fold_left (fun sum item => add sum (Analysis.estimatedCost item))
               (filter Analysis.needsReorder reorderData) (int 0))
    (List.length (filter (fun item =>
                       Analysis.needsReorder item
                       && match criticality (Analysis.product item) with
                          | high => true
                          | _ => false
                          end)
                    reorderData)).

Inductive Badge : Type :=
| badge_OK
| badge_OUT_OF_STOCK
| badge_URGENT
| badge_HIGH
| badge_MEDIUM.

Section Coercions.

(** The conversion of a string to a number, which a comparison applies to a
    string operand. *)
Variable StringToNumber : string -> num.

Definition ToNumber (v : value) : num :=
  match v with
  | VNum n => n
  | VStr s => StringToNumber s
  end.

(** [UrgencyBadge({ daysRemaining, needsReorder })] *)
Definition UrgencyBadge (daysRemaining : value) (needsReorder : bool) : Badge :=
  if negb needsReorder then badge_OK
  else if leb (ToNumber daysRemaining) (int 0) then badge_OUT_OF_STOCK
  else if leb (ToNumber daysRemaining) (int 3) then badge_URGENT
  else if leb (ToNumber daysRemaining) (int 7) then badge_HIGH
  else badge_MEDIUM.

End Coercions.

(** ** The cost computation in binary64

    The same helpers and the same analysis over the machine's Numbers
    (IEEE 754 binary64, the kernel's primitive floats), where products and
    quotients are rounded.  It serves to evaluate the code at inputs on which
    rounding decides the result. *)

Module Binary64.

(** An integer of at most 53 bits as a Number. *)
Definition of_Z (z : Z) : PrimFloat.float :=
  if (z <? 0)%Z
  then PrimFloat.opp (PrimFloat.of_uint63 (Uint63.of_Z (- z)))
  else PrimFloat.of_uint63 (Uint63.of_Z z).


(** The rational a finite Number stands for. *)
Definition to_Q (x : PrimFloat.float) : option Q :=
  match FloatOps.Prim2SF x with
  | SpecFloat.S754_zero _ => Some 0%Q
  | SpecFloat.S754_finite s m e =>
      let magnitude :=
        if (0 <=? e)%Z then inject_Z (Zpos m * 2 ^ e)
        else (Zpos m # 2 ^ Z.to_pos (- e))%Q in
      Some (if s then (- magnitude)%Q else magnitude)
  | _ => None
  end.

(** [Math.floor(x)] and [Math.round(x)].  A Number of magnitude 2^52 or more
    is an integer: it, a zero, an infinity and NaN are returned as they are.
    [Math.round] gives -0 for a number from -0.5 up to -0. *)
Definition below_2_52 (x : PrimFloat.float) : bool :=
  match FloatOps.Prim2SF x with
  | SpecFloat.S754_finite _ _ e => (e <? 0)%Z
  | _ => false
  end.

Definition Math_floor (x : PrimFloat.float) : PrimFloat.float :=
  match to_Q x with
  | Some q => if below_2_52 x then of_Z (Qfloor q) else x
  | None => x
  end.

Definition Math_round (x : PrimFloat.float) : PrimFloat.float :=
  match to_Q x with
  | Some q =>
      if below_2_52 x then
        let k := Qfloor (q + (1 # 2)) in
        if (k =? 0)%Z && PrimFloat.ltb x PrimFloat.zero
        then PrimFloat.opp PrimFloat.zero
        else of_Z k
      else x
  | None => x
  end.

(** [Math.max(x, y)] *)
Definition Math_max (x y : PrimFloat.float) : PrimFloat.float :=
  if PrimFloat.is_nan x || PrimFloat.is_nan y then PrimFloat.nan
  else if PrimFloat.ltb x y then y else x.

Definition calculateDaysOfStockRemaining
    (currentStock averageDailySales : PrimFloat.float) : PrimFloat.float :=
  if PrimFloat.eqb averageDailySales PrimFloat.zero then PrimFloat.infinity
  else Math_floor (PrimFloat.div currentStock averageDailySales).

Definition calculateSafetyStockThreshold
    (supplierLeadTime bufferDays : PrimFloat.float) : PrimFloat.float :=
  PrimFloat.add supplierLeadTime bufferDays.

Definition calculateOptimalReorderQuantity
    (averageDailySales targetDays currentStock : PrimFloat.float)
  : PrimFloat.float :=
  let targetStock := PrimFloat.mul averageDailySales targetDays in
  Math_max PrimFloat.zero (PrimFloat.sub targetStock currentStock).

Definition needsReorder (daysRemaining safetyThreshold : PrimFloat.float) : bool :=
  PrimFloat.leb daysRemaining safetyThreshold.

(** The numbers of a product document. *)
Record Product : Type := mkProduct {
  currentStock : PrimFloat.float;
  averageDailySales : PrimFloat.float;
  supplierLeadTime : PrimFloat.float;
  minimumReorderQuantity : PrimFloat.float;
  costPerUnit : PrimFloat.float
}.

(** [needsReorderFlag], [optimalQuantity] and [estimatedCost] of the analysis
    of a product. *)
Definition needsReorderFlag (product : Product) : bool :=
  needsReorder
    (calculateDaysOfStockRemaining (currentStock product) (averageDailySales product))
    (calculateSafetyStockThreshold (supplierLeadTime product) (of_Z 5)).

Definition optimalQuantity (product : Product) : PrimFloat.float :=
  if needsReorderFlag product
  then Math_max
         (calculateOptimalReorderQuantity
            (averageDailySales product) (of_Z 60) (currentStock product))
         (minimumReorderQuantity product)
  else PrimFloat.zero.

Definition estimatedCost (product : Product) : PrimFloat.float :=
  PrimFloat.div
    (Math_round
       (PrimFloat.mul (PrimFloat.mul (optimalQuantity product) (costPerUnit product))
                      (of_Z 100)))
    (of_Z 100).

End Binary64.

(** ** Vocabulary of the specification *)

(** [k] is the floor of [q]: the integer with [k <= q < k + 1]. *)
Definition floor_of (q : Qc) (k : Z) : Prop :=
  ofZ k <= q /\ q < ofZ k + 1.

(** "daysRemaining <= threshold", the unlimited tag counting as greater than
    every threshold. *)
Definition days_within (daysRemaining : value) (threshold : num) : bool :=
  match daysRemaining with
  | VNum n => leb n threshold
  | VStr _ => false
  end.

(** [x] stands before [y] in [l]. *)
Definition precedes {A : Type} (l : list A) (x y : A) : Prop :=
  exists l1 l2 l3, l = l1 ++ x :: l2 ++ y :: l3.

(** high is more critical than medium, medium than low. *)
Inductive more_critical : Criticality -> Criticality -> Prop :=
| high_over_medium : more_critical high medium
| high_over_low : more_critical high low
| medium_over_low : more_critical medium low.

Definition Criticality_eqb (c c' : Criticality) : bool :=
  match c, c' with
  | high, high | medium, medium | low, low => true
  | _, _ => false
  end.

(** Two results are tied when they agree on both sort keys. *)
Definition tied (a b : Analysis.t) : bool :=
  Bool.eqb (Analysis.needsReorder a) (Analysis.needsReorder b)
  && Criticality_eqb (criticality (Analysis.product a))
                     (criticality (Analysis.product b)).

(** The two sort keys as one number: a result the comparator puts first has
    the larger urgency. *)
Definition urgency (a : Analysis.t) : Z :=
  ((if Analysis.needsReorder a then 3 else 0)
   + criticalityOrder (criticality (Analysis.product a)))%Z.






(** [r] is [x] rounded to two decimals, half up: [r] is a whole number of
    hundredths, [x] lies within half a hundredth of it, and the tie
    [x = r - 0.005] is resolved upwards, to [r]. *)
Definition rounded_half_up_2dp (x r : Qc) : Prop :=
  (exists k : Z, r * ofZ 100 = ofZ k) /\
  r - Q2Qc (1 # 200) <= x /\ x < r + Q2Qc (1 # 200).

(** ** Vocabulary of the further properties *)

(** A finite number that is not negative, a finite number above 0, and a
    finite number that is at least 1. *)
Definition amount (x : num) : Prop := exists q : Qc, x = Fin q /\ 0 <= q.
Definition positive_amount (x : num) : Prop := exists q : Qc, x = Fin q /\ 0 < q.
Definition at_least_one (x : num) : Prop := exists q : Qc, x = Fin q /\ 1 <= q.

(** A product whose five numbers are finite: its rows reach a page as the
    server built them. *)
Definition finite_fields (p : Product) : Prop :=
  is_finite (currentStock p) /\ is_finite (averageDailySales p) /\
  is_finite (supplierLeadTime p) /\ is_finite (minimumReorderQuantity p) /\
  is_finite (costPerUnit p).

(** The numbers (and the days-remaining tags) of a simulation response, as
    [res.json] writes them. *)
Definition simulation_json_numbers (s : Simulation.t) : list json :=
  [ stringify_num (Original.currentStock (Simulation.original s));
    stringify_num (Original.averageDailySales (Simulation.original s));
    stringify (Original.daysRemaining (Simulation.original s));
    stringify_num (AfterSpike.stockAfterSpike (Simulation.afterSpike s));
    stringify_num (AfterSpike.newAverageDailySales (Simulation.afterSpike s));
    stringify (AfterSpike.daysRemaining (Simulation.afterSpike s));
    stringify_num (AfterSpike.optimalReorderQuantity (Simulation.afterSpike s));
    stringify_num (AfterSpike.estimatedCost (Simulation.afterSpike s));
    stringify_num (SpikeDetails.spikeMultiplier (Simulation.spikeDetails s));
    stringify_num (SpikeDetails.spikeDuration (Simulation.spikeDetails s));
    stringify_num (SpikeDetails.totalConsumptionDuringSpike (Simulation.spikeDetails s));
    stringify_num (SpikeDetails.stockDepletion (Simulation.spikeDetails s)) ].

(** ** Rounding to two decimals, as the specification asks for it *)






(** * Properties *)

(** ** Facts about the number model *)

Lemma Qc_leb_iff (a b : Qc) : Qc_leb a b = true <-> a <= b.
Proof. unfold Qc_leb, Qcle. apply Qle_bool_iff. Qed.

Lemma Qc_ltb_iff (a b : Qc) : Qc_ltb a b = true <-> a < b.
Proof.
  unfold Qc_ltb, Qclt. rewrite negb_true_iff.
  split; intro H.
  - apply Qnot_le_lt. intro Hle. apply Qle_bool_iff in Hle. congruence.
  - destruct (Qle_bool b a) eqn:E; [|reflexivity].
    apply Qle_bool_iff in E. exfalso. exact (Qlt_not_le _ _ H E).
Qed.

Lemma Qc_eqb_iff (a b : Qc) : Qc_eqb a b = true <-> a = b.
Proof.
  unfold Qc_eqb. rewrite Qeq_bool_iff. split.
  - apply Qc_is_canon.
  - intros ->. reflexivity.
Qed.

Lemma Qc_eqb_false (a b : Qc) : Qc_eqb a b = false <-> a <> b.
Proof.
  rewrite <- Qc_eqb_iff. destruct (Qc_eqb a b); split; congruence.
Qed.

Lemma Qc_leb_false (a b : Qc) : Qc_leb a b = false <-> b < a.
Proof.
  rewrite <- Qc_ltb_iff. unfold Qc_ltb, Qc_leb.
  destruct (Qle_bool a b); simpl; split; congruence.
Qed.

Lemma Qc_ltb_false (a b : Qc) : Qc_ltb a b = false <-> b <= a.
Proof.
  rewrite <- Qc_leb_iff. unfold Qc_ltb, Qc_leb.
  destruct (Qle_bool b a); simpl; split; congruence.
Qed.

(** Two finite numbers are equal as soon as their rationals are. *)
Lemma Fin_canon (a b : Qc) : Qc_eqb a b = true -> Fin a = Fin b.
Proof. intro H. f_equal. apply Qc_eqb_iff. exact H. Qed.

(** Evaluate both sides of an equation between closed numbers. *)
Ltac num_compute :=
  vm_compute; first [reflexivity | apply Fin_canon; vm_compute; reflexivity].

Lemma this_Q2Qc (q : Q) : (this (Q2Qc q) == q)%Q.
Proof. unfold Q2Qc. cbn [this]. apply Qred_correct. Qed.

Lemma this_plus (a b : Qc) : (this (a + b) == this a + this b)%Q.
Proof. unfold Qcplus. apply this_Q2Qc. Qed.

Lemma Qc_floor_ofZ (q : Qc) : Qc_floor q = ofZ (Qfloor q).
Proof. reflexivity. Qed.

Lemma Qc_floor_le (q : Qc) : Qc_floor q <= q.
Proof.
  unfold Qc_floor, ofZ, Qcle. rewrite this_Q2Qc. apply Qfloor_le.
Qed.

Lemma Qc_lt_floor (q : Qc) : q < Qc_floor q + 1.
Proof.
  unfold Qc_floor, ofZ, Qclt. rewrite this_plus, this_Q2Qc.
  pose proof (Qlt_floor q) as H.
  rewrite inject_Z_plus in H. exact H.
Qed.

Lemma ofZ_le (a b : Z) : (a <= b)%Z <-> ofZ a <= ofZ b.
Proof.
  unfold ofZ, Qcle. rewrite !this_Q2Qc. rewrite <- Zle_Qle. reflexivity.
Qed.

Lemma ofZ_lt (a b : Z) : (a < b)%Z <-> ofZ a < ofZ b.
Proof.
  unfold ofZ, Qclt. rewrite !this_Q2Qc. rewrite <- Zlt_Qlt. reflexivity.
Qed.

Lemma ofZ_plus (a b : Z) : ofZ (a + b) = ofZ a + ofZ b.
Proof.
  apply Qc_is_canon. rewrite this_plus. unfold ofZ. rewrite !this_Q2Qc.
  rewrite inject_Z_plus. reflexivity.
Qed.

(** [floor_of] determines its integer: it is the integer part. *)
Lemma floor_of_unique (q : Qc) (k : Z) : floor_of q k -> k = Qfloor q.
Proof.
  intros [Hle Hlt].
  pose proof (Qc_floor_le q) as Fle. pose proof (Qc_lt_floor q) as Flt.
  rewrite Qc_floor_ofZ in Fle, Flt.
  change 1 with (ofZ 1) in Hlt, Flt. rewrite <- ofZ_plus in Hlt, Flt.
  assert (H1 : (k < Qfloor q + 1)%Z).
  { apply ofZ_lt. eapply Qcle_lt_trans; eassumption. }
  assert (H2 : (Qfloor q < k + 1)%Z).
  { apply ofZ_lt. eapply Qcle_lt_trans; eassumption. }
  lia.
Qed.

Lemma Qc_div_nonneg (a b : Qc) : 0 <= a -> 0 <= b -> 0 <= a / b.
Proof.
  unfold Qcle, Qcdiv, Qcmult, Qcinv. rewrite !this_Q2Qc.
  intros Ha Hb. apply Qmult_le_0_compat; [exact Ha|].
  apply Qinv_le_0_compat. exact Hb.
Qed.


(** ** The decision engine *)



(** Comparisons and [Math.max] on [num]. *)

Lemma leb_trans (a b c : num) : leb a b = true -> leb b c = true -> leb a c = true.
Proof.
  destruct a as [qa| | |], b as [qb| | |], c as [qc| | |];
    cbn; try congruence.
  rewrite !Qc_leb_iff. apply Qcle_trans.
Qed.




Lemma Math_max_finite (x y : num) :
  is_finite x -> is_finite y -> is_finite (Math_max x y).
Proof.
  destruct x, y; cbn; try tauto. destruct (Qc_leb q q0); cbn; tauto.
Qed.



Lemma tagUnlimited_within (d threshold : num) :
  is_finite threshold ->
  days_within (tagUnlimited d) threshold = leb d threshold.
Proof.
  intro Hf. unfold tagUnlimited.
  destruct d, threshold; cbn in *; try reflexivity; contradiction.
Qed.

Lemma add_finite (x y : num) : is_finite x -> is_finite y -> is_finite (add x y).
Proof. destruct x, y; cbn; tauto. Qed.

Lemma int_finite (k : Z) : is_finite (int k).
Proof. exact I. Qed.

(** C2.  With the default buffer of 5 days the analysis of a product (whose
    lead time is a finite number) reports needsReorder = true exactly when its
    daysRemaining is within supplierLeadTime + 5; with averageDailySales = 0
    daysRemaining is the tag 'Unlimited' and needsReorder is false whatever the
    lead time: the unlimited value is above every finite threshold. *)
Theorem needs_reorder_iff_within_threshold (p : Product) :
  is_finite (supplierLeadTime p) ->
  Analysis.safetyThreshold (analyze p) = add (supplierLeadTime p) (int 5) /\
  (Analysis.needsReorder (analyze p) = true <->
   days_within (Analysis.daysRemaining (analyze p))
               (add (supplierLeadTime p) (int 5)) = true) /\
  (averageDailySales p = int 0 ->
   Analysis.daysRemaining (analyze p) = VStr "Unlimited" /\
   Analysis.needsReorder (analyze p) = false).
Proof.
  intro Hlead.
  assert (Hthr : is_finite (add (supplierLeadTime p) (int 5))).
  { apply add_finite; [exact Hlead | apply int_finite]. }
  split; [reflexivity|]. split.
  - cbn [analyze Analysis.needsReorder Analysis.daysRemaining].
    unfold calculateSafetyStockThreshold, default_bufferDays, needsReorder.
    rewrite tagUnlimited_within by exact Hthr. reflexivity.
  - intro Havg.
    cbn [analyze Analysis.needsReorder Analysis.daysRemaining].
    unfold calculateDaysOfStockRemaining. rewrite Havg.
    split; [reflexivity|].
    unfold needsReorder, calculateSafetyStockThreshold, default_bufferDays.
    destruct (add (supplierLeadTime p) (int 5)); cbn in *;
      first [reflexivity | contradiction].
Qed.

Lemma needs_reorder_iff_within_threshold_witness :
  let p := mkProduct "SLOW-001" "Display Stand" (int 60) (int 0) (int 4)
                     (int 40) (int 899) low 0 in
  is_finite (supplierLeadTime p) /\
  averageDailySales p = int 0 /\
  Analysis.daysRemaining (analyze p) = VStr "Unlimited" /\
  Analysis.needsReorder (analyze p) = false.
Proof.
  intro p.
  assert (Hlead : is_finite (supplierLeadTime p)) by exact I.
  assert (Havg : averageDailySales p = int 0) by reflexivity.
  split; [exact Hlead|]. split; [exact Havg|].
  exact (proj2 (proj2 (needs_reorder_iff_within_threshold p Hlead)) Havg).
Defined.



(** ** The demand-spike projection *)

Lemma Math_max_0_fin (q : Qc) :
  Math_max (int 0) (Fin q) = Fin (if Qc_leb 0 q then q else 0).
Proof.
  cbn. change (ofZ 0) with 0. destruct (Qc_leb 0 q); reflexivity.
Qed.





Lemma mul_zero_finite (x : num) : is_finite x -> mul (int 0) x = int 0.
Proof.
  destruct x as [q| | |]; cbn; try contradiction. intros _.
  change (ofZ 0) with 0. rewrite Qcmult_0_l. reflexivity.
Qed.

Lemma sub_zero (q : Qc) : sub (Fin q) (int 0) = Fin q.
Proof.
  cbn. f_equal. change (ofZ 0) with 0. ring.
Qed.

Lemma normalPeriod_finite (d : num) : is_finite d -> is_finite (normalPeriod d).
Proof.
  intro H. unfold normalPeriod. apply Math_max_finite; [exact I|].
  destruct d; cbn in *; tauto.
Qed.

Lemma zero_sales_new_average (p : Product) (m d : num) :
  averageDailySales p = int 0 -> is_finite m -> is_finite d ->
  newAverageDailySales p m d = int 0.
Proof.
  intros Havg Hm Hd.
  unfold newAverageDailySales, spikedDailySales, normalDailySales.
  rewrite Havg. rewrite (mul_zero_finite m Hm), (mul_zero_finite d Hd).
  rewrite (mul_zero_finite _ (normalPeriod_finite d Hd)).
  destruct (geb d totalDays); [reflexivity|]. num_compute.
Qed.

(** C10.  With averageDailySales = 0 a spike (finite multiplier > 0 and
    duration > 0, on a record whose stock is not negative and whose lead time
    is finite) consumes nothing: totalSpikeConsumption = 0, stockAfterSpike =
    currentStock, newAverageDailySales = 0, and the afterSpike projection has
    daysRemaining 'Unlimited', needsReorder false, optimalReorderQuantity 0. *)
Theorem zero_sales_spike_consumes_nothing
    (p : Product) (multiplier duration : num) (stock : Qc) :
  averageDailySales p = int 0 ->
  currentStock p = Fin stock -> 0 <= stock ->
  is_finite (supplierLeadTime p) ->
  is_finite multiplier -> ltb (int 0) multiplier = true ->
  is_finite duration -> ltb (int 0) duration = true ->
  totalSpikeConsumption p multiplier duration = int 0 /\
  stockAfterSpike p multiplier duration = currentStock p /\
  newAverageDailySales p multiplier duration = int 0 /\
  AfterSpike.daysRemaining
    (Simulation.afterSpike (simulation p multiplier duration)) = VStr "Unlimited" /\
  AfterSpike.needsReorder
    (Simulation.afterSpike (simulation p multiplier duration)) = false /\
  AfterSpike.optimalReorderQuantity
    (Simulation.afterSpike (simulation p multiplier duration)) = int 0.
Proof.
  intros Havg Hstock Hnonneg Hlead Hm _ Hd _.
  assert (Htotal : totalSpikeConsumption p multiplier duration = int 0).
  { unfold totalSpikeConsumption, spikedDailySales, normalDailySales.
    rewrite Havg, (mul_zero_finite multiplier Hm). apply mul_zero_finite, Hd. }
  assert (Hnew := zero_sales_new_average p multiplier duration Havg Hm Hd).
  assert (Hdays : spike_daysRemaining p multiplier duration = PInf).
  { unfold spike_daysRemaining, calculateDaysOfStockRemaining.
    rewrite Hnew. reflexivity. }
  assert (Hflag : spike_needsReorderFlag p multiplier duration = false).
  { unfold spike_needsReorderFlag, spike_safetyThreshold,
      calculateSafetyStockThreshold, needsReorder.
    rewrite Hdays. destruct (supplierLeadTime p); cbn in *;
      first [reflexivity | contradiction]. }
  split; [exact Htotal|]. split; [|split; [exact Hnew|]].
  - unfold stockAfterSpike. rewrite Htotal, Hstock, sub_zero, Math_max_0_fin.
    apply Qc_leb_iff in Hnonneg. rewrite Hnonneg. reflexivity.
  - cbn [simulation Simulation.afterSpike AfterSpike.daysRemaining
           AfterSpike.needsReorder AfterSpike.optimalReorderQuantity].
    unfold spike_optimalQuantity. rewrite Hdays, Hflag.
    repeat split; reflexivity.
Qed.

Lemma zero_sales_spike_consumes_nothing_witness :
  let p := mkProduct "SLOW-001" "Display Stand" (int 60) (int 0) (int 4)
                     (int 40) (int 899) low 0 in
  averageDailySales p = int 0 /\ currentStock p = Fin (ofZ 60) /\ 0 <= ofZ 60 /\
  is_finite (supplierLeadTime p) /\
  is_finite (int 3) /\ ltb (int 0) (int 3) = true /\
  is_finite (int 10) /\ ltb (int 0) (int 10) = true /\
  totalSpikeConsumption p (int 3) (int 10) = int 0 /\
  stockAfterSpike p (int 3) (int 10) = int 60 /\
  newAverageDailySales p (int 3) (int 10) = int 0.
Proof.
  intro p.
  assert (H1 : averageDailySales p = int 0) by reflexivity.
  assert (H2 : currentStock p = Fin (ofZ 60)) by reflexivity.
  assert (H3 : 0 <= ofZ 60) by (apply Qc_leb_iff; reflexivity).
  assert (H4 : is_finite (supplierLeadTime p)) by exact I.
  assert (H5 : ltb (int 0) (int 3) = true) by reflexivity.
  assert (H6 : ltb (int 0) (int 10) = true) by reflexivity.
  destruct (zero_sales_spike_consumes_nothing p (int 3) (int 10) (ofZ 60)
              H1 H2 H3 H4 I H5 I H6) as [T [S [N _]]].
  repeat (split; [assumption || exact I|]). exact N.
Defined.

(** ** The ranking sort *)

(** [Array_sort] for a comparator that compares ranks: the result is a
    permutation, ordered by decreasing rank, and elements of one rank keep
    their order. *)
Section SortByRank.

Context {A : Type} (compare : A -> A -> Z) (rank : A -> Z).
Hypothesis compare_rank : forall a b, (compare a b <= 0)%Z <-> (rank b <= rank a)%Z.

Let above (a b : A) : Prop := (rank b <= rank a)%Z.

Lemma insert_perm (x : A) (l : list A) : Permutation (x :: l) (insert compare x l).
Proof.
  induction l as [|y l IH]; cbn.
  - apply Permutation_refl.
  - destruct (compare x y <=? 0)%Z.
    + apply Permutation_refl.
    + eapply perm_trans; [apply perm_swap|]. apply perm_skip. exact IH.
Qed.

Lemma Array_sort_perm (l : list A) : Permutation l (Array_sort compare l).
Proof.
  induction l as [|x l IH]; cbn.
  - apply perm_nil.
  - eapply perm_trans; [apply perm_skip, IH | apply insert_perm].
Qed.

Lemma insert_sorted (x : A) (l : list A) :
  StronglySorted above l -> StronglySorted above (insert compare x l).
Proof.
  induction l as [|y l IH]; cbn; intro Hs.
  - constructor; constructor.
  - apply StronglySorted_inv in Hs. destruct Hs as [Hl Hy].
    destruct (compare x y <=? 0)%Z eqn:E.
    + apply Z.leb_le, compare_rank in E.
      constructor; [constructor; assumption|].
      constructor; [exact E|].
      eapply Forall_impl; [|exact Hy]. unfold above. intros z Hz. lia.
    + apply Z.leb_gt in E.
      assert (Hyx : above y x).
      { unfold above. destruct (Z_le_gt_dec (rank x) (rank y)) as [H|H]; [exact H|].
        exfalso. assert (Hc : (compare x y <= 0)%Z) by (apply compare_rank; lia).
        lia. }
      constructor; [apply IH, Hl|].
      eapply Permutation_Forall; [apply insert_perm|].
      constructor; assumption.
Qed.

Lemma Array_sort_sorted (l : list A) : StronglySorted above (Array_sort compare l).
Proof.
  induction l as [|x l IH]; cbn.
  - constructor.
  - apply insert_sorted, IH.
Qed.

Lemma sorted_precedes (l : list A) (x y : A) :
  StronglySorted above l -> precedes l x y -> (rank y <= rank x)%Z.
Proof.
  intros Hs (l1 & l2 & l3 & ->).
  induction l1 as [|z l1 IH]; cbn in Hs; apply StronglySorted_inv in Hs;
    destruct Hs as [Hs Hall].
  - rewrite Forall_forall in Hall. apply Hall.
    apply in_or_app. right. left. reflexivity.
  - apply IH, Hs.
Qed.

Lemma insert_filter_rank (k : Z) (x : A) (l : list A) :
  filter (fun a => (rank a =? k)%Z) (insert compare x l)
  = filter (fun a => (rank a =? k)%Z) (x :: l).
Proof.
  induction l as [|y l IH]; [reflexivity|].
  cbn [insert]. destruct (compare x y <=? 0)%Z eqn:E; [reflexivity|].
  apply Z.leb_gt in E.
  assert (Hne : rank x <> rank y).
  { intro Heq. assert (Hc : (compare x y <= 0)%Z) by (apply compare_rank; lia). lia. }
  cbn [filter] in *. rewrite IH.
  destruct (rank x =? k)%Z eqn:Ex, (rank y =? k)%Z eqn:Ey; try reflexivity.
  apply Z.eqb_eq in Ex, Ey. congruence.
Qed.

Lemma Array_sort_filter_rank (k : Z) (l : list A) :
  filter (fun a => (rank a =? k)%Z) (Array_sort compare l)
  = filter (fun a => (rank a =? k)%Z) l.
Proof.
  induction l as [|x l IH]; [reflexivity|].
  cbn [Array_sort]. rewrite insert_filter_rank. cbn [filter]. rewrite IH.
  reflexivity.
Qed.

Lemma filter_rank_head (x : A) (l : list A) :
  filter (fun a => (rank a =? rank x)%Z) (x :: l)
  = x :: filter (fun a => (rank a =? rank x)%Z) l.
Proof. cbn. rewrite Z.eqb_refl. reflexivity. Qed.

Lemma sorted_head_is_top (x : A) (l : list A) (y : A) :
  StronglySorted above (x :: l) -> In y (x :: l) -> (rank y <= rank x)%Z.
Proof.
  intros Hs Hin. apply StronglySorted_inv in Hs. destruct Hs as [_ Hall].
  destruct Hin as [<- | Hin]; [lia|].
  rewrite Forall_forall in Hall. exact (Hall y Hin).
Qed.

Lemma same_filters_same_members (l1 l2 : list A) (y : A) :
  (forall k, filter (fun a => (rank a =? k)%Z) l1
             = filter (fun a => (rank a =? k)%Z) l2) ->
  In y l2 -> In y l1.
Proof.
  intros Hf Hin.
  assert (H : In y (filter (fun a => (rank a =? rank y)%Z) l2)).
  { apply filter_In. split; [exact Hin | apply Z.eqb_refl]. }
  rewrite <- Hf in H. apply filter_In in H. exact (proj1 H).
Qed.

(** A list in decreasing rank is determined by its elements of each rank, in
    their order: two stable sorts of one array agree. *)
Lemma sorted_stable_unique (l1 l2 : list A) :
  StronglySorted above l1 -> StronglySorted above l2 ->
  (forall k, filter (fun a => (rank a =? k)%Z) l1
             = filter (fun a => (rank a =? k)%Z) l2) ->
  l1 = l2.
Proof.
  revert l2. induction l1 as [|x l1 IH]; intros l2 S1 S2 Hf.
  - destruct l2 as [|y l2]; [reflexivity|].
    specialize (Hf (rank y)). rewrite filter_rank_head in Hf. discriminate.
  - destruct l2 as [|y l2].
    { specialize (Hf (rank x)). rewrite filter_rank_head in Hf. discriminate. }
    assert (Hyx : (rank y <= rank x)%Z).
    { apply (sorted_head_is_top x l1 y S1).
      apply (same_filters_same_members _ (y :: l2) y Hf). left. reflexivity. }
    assert (Hxy : (rank x <= rank y)%Z).
    { apply (sorted_head_is_top y l2 x S2).
      apply (same_filters_same_members _ (x :: l1) x); [|left; reflexivity].
      intro k. symmetry. apply Hf. }
    assert (E : rank x = rank y) by lia.
    pose proof (Hf (rank x)) as Hhead.
    cbn [filter] in Hhead. rewrite <- E, Z.eqb_refl in Hhead.
    injection Hhead as Hx _. subst y.
    f_equal. apply IH.
    + apply StronglySorted_inv in S1. exact (proj1 S1).
    + apply StronglySorted_inv in S2. exact (proj1 S2).
    + intro k. specialize (Hf k). cbn [filter] in Hf.
      destruct (rank x =? k)%Z; [injection Hf as Hf|]; exact Hf.
Qed.

(** Whatever stable sorting algorithm the engine runs, on this comparator it
    returns what [Array_sort] returns. *)
Lemma Array_sort_unique (l out : list A) :
  StronglySorted above out ->
  (forall k, filter (fun a => (rank a =? k)%Z) out
             = filter (fun a => (rank a =? k)%Z) l) ->
  out = Array_sort compare l.
Proof.
  intros Hs Hf. apply sorted_stable_unique.
  - exact Hs.
  - apply Array_sort_sorted.
  - intro k. rewrite Hf. symmetry. apply Array_sort_filter_rank.
Qed.

End SortByRank.

Lemma comparator_urgency (a b : Analysis.t) :
  (comparator a b <= 0)%Z <-> (urgency b <= urgency a)%Z.
Proof.
  unfold comparator, urgency.
  destruct (Analysis.needsReorder a), (Analysis.needsReorder b);
    destruct (criticality (Analysis.product a)), (criticality (Analysis.product b));
    cbn; lia.
Qed.

Lemma tied_urgency (a b : Analysis.t) : tied a b = (urgency b =? urgency a)%Z.
Proof.
  unfold tied, urgency.
  destruct (Analysis.needsReorder a), (Analysis.needsReorder b);
    destruct (criticality (Analysis.product a)), (criticality (Analysis.product b));
    reflexivity.
Qed.

(** C5.  [analyzeAll] returns the analysis of every input record, ordered so
    that no record without a reorder need stands before one with it, that
    among records with the same needsReorder none stands before a more
    critical one (high before medium before low), and that records tied on
    both keys keep their input order. *)
Theorem analyzeAll_ranked_and_stable (products : list Product) :
  Permutation (map analyze products) (analyzeAll products) /\
  (forall x y : Analysis.t,
     precedes (analyzeAll products) x y ->
     (Analysis.needsReorder y = true -> Analysis.needsReorder x = true) /\
     (Analysis.needsReorder x = Analysis.needsReorder y ->
      ~ more_critical (criticality (Analysis.product y))
                      (criticality (Analysis.product x)))) /\
  (forall a : Analysis.t,
     filter (tied a) (analyzeAll products) = filter (tied a) (map analyze products)).
Proof.
  unfold analyzeAll. split; [|split].
  - apply Array_sort_perm.
  - intros x y Hxy.
    pose proof (sorted_precedes urgency _ x y
                  (Array_sort_sorted comparator urgency comparator_urgency _) Hxy)
      as Hrank.
    unfold urgency in Hrank. split.
    + intro Hy. rewrite Hy in Hrank.
      destruct (Analysis.needsReorder x); [reflexivity|].
      destruct (criticality (Analysis.product x)),
               (criticality (Analysis.product y)); cbn in Hrank; lia.
    + intros Heq Hmore. rewrite Heq in Hrank.
      destruct (Analysis.needsReorder y);
        inversion Hmore as [Hy Hx | Hy Hx | Hy Hx];
        rewrite <- Hx, <- Hy in Hrank; cbn in Hrank; lia.
  - intro a.
    rewrite (filter_ext (tied a) (fun b => (urgency b =? urgency a)%Z)
               (tied_urgency a)).
    rewrite (filter_ext (tied a) (fun b => (urgency b =? urgency a)%Z)
               (tied_urgency a)).
    apply (Array_sort_filter_rank comparator urgency comparator_urgency).
Qed.

Lemma analyzeAll_ranked_and_stable_witness :
  let calm := mkProduct "PROD-005" "Laptop Screen Protector" (int 25) (dec 8 10)
                        (int 10) (int 20) (int 1349) low 0 in
  let speaker := mkProduct "PROD-009" "Bluetooth Speaker Portable" (int 8)
                           (dec 41 10) (int 9) (int 20) (int 2949) high 0 in
  let cable := mkProduct "PROD-002" "USB-C Cable 6ft" (int 12) (dec 85 10)
                         (int 3) (int 100) (int 1049) medium 0 in
  let products := [calm; cable; speaker] in
  precedes (analyzeAll products) (analyze speaker) (analyze cable) /\
  Analysis.needsReorder (analyze speaker) = Analysis.needsReorder (analyze cable) /\
  ~ more_critical (criticality (Analysis.product (analyze cable)))
                  (criticality (Analysis.product (analyze speaker))).
Proof.
  intros calm speaker cable products.
  assert (Hbefore : precedes (analyzeAll products) (analyze speaker) (analyze cable)).
  { exists [], [], [analyze calm]. vm_compute. reflexivity. }
  assert (Hsame : Analysis.needsReorder (analyze speaker)
                  = Analysis.needsReorder (analyze cable)) by reflexivity.
  split; [exact Hbefore|]. split; [exact Hsame|].
  exact (proj2 (proj1 (proj2 (analyzeAll_ranked_and_stable products))
                  (analyze speaker) (analyze cable) Hbefore) Hsame).
Defined.

(** ** Validation of the spike request *)








(** ** Rounding to two decimals *)

Lemma this_mult (a b : Qc) : (this (a * b) == this a * this b)%Q.
Proof. unfold Qcmult. apply this_Q2Qc. Qed.

Lemma this_opp (a : Qc) : (this (- a) == - this a)%Q.
Proof. unfold Qcopp. apply this_Q2Qc. Qed.

Lemma this_ofZ (k : Z) : (this (ofZ k) == inject_Z k)%Q.
Proof. apply this_Q2Qc. Qed.

Lemma ofZ_100_nonzero : ofZ 100 <> 0.
Proof. apply Qc_eqb_false. reflexivity. Qed.

Lemma round2_fin (x : Qc) :
  round2 (Fin x) = Fin (Qc_floor (x * ofZ 100 + Q2Qc (1 # 2)) / ofZ 100).
Proof. reflexivity. Qed.

Lemma round2_half_up (x : Qc) :
  exists r, round2 (Fin x) = Fin r /\ rounded_half_up_2dp x r.
Proof.
  rewrite round2_fin.
  set (y := x * ofZ 100 + Q2Qc (1 # 2)).
  exists (Qc_floor y / ofZ 100). split; [reflexivity|].
  assert (Hk : Qc_floor y / ofZ 100 * ofZ 100 = Qc_floor y).
  { field. exact ofZ_100_nonzero. }
  pose proof (Qc_floor_le y) as Hle. pose proof (Qc_lt_floor y) as Hlt.
  set (r := Qc_floor y / ofZ 100) in *.
  split; [exists (Qfloor y); exact Hk|].
  rewrite <- Hk in Hle, Hlt. subst y.
  unfold Qcle, Qclt, Qcminus in *.
  rewrite ?this_plus, ?this_mult, ?this_opp, ?this_ofZ, ?this_Q2Qc in *.
  change (this 1) with 1%Q in Hlt.
  change (inject_Z 100) with 100%Q in *.
  split; lra.
Qed.

(** [Math.round] resolves a tie upwards: 0.125 becomes 0.13, where rounding
    half to even would give 0.12. *)
Lemma round2_tie_goes_up : round2 (dec 125 1000) = dec 13 100.
Proof. num_compute. Qed.





(** ** What the simulation serializes *)

(** The depletion percentage while the stock is positive: the consumption
    over the stock, times 100, rounded half up to two decimals. *)
Lemma stock_depletion_percentage (p : Product) (m d : num) (stock consumed : Qc) :
  currentStock p = Fin stock -> 0 < stock ->
  totalSpikeConsumption p m d = Fin consumed ->
  exists percent,
    SpikeDetails.stockDepletion (Simulation.spikeDetails (simulation p m d))
      = Fin percent /\
    rounded_half_up_2dp (consumed / stock * ofZ 100) percent.
Proof.
  intros Hs Hpos Hc.
  cbn [simulation Simulation.spikeDetails SpikeDetails.stockDepletion].
  rewrite Hs, Hc. cbn [div].
  assert (E : Qc_eqb stock 0 = false).
  { apply Qc_eqb_false. intro E. subst stock. exact (Qclt_not_eq _ _ Hpos eq_refl). }
  rewrite E. cbn [mul int]. apply round2_half_up.
Qed.

(** C7, on the code.  With currentStock = 0 the division is not guarded: a
    product that sells gets stockDepletion = Infinity, one that does not gets
    NaN, and the response serializes either as null; no 'not applicable'
    outcome is signalled. *)
Theorem stock_depletion_of_empty_stock :
  let selling := mkProduct "OUT-001" "Desk Lamp" (int 0) (int 2) (int 7) (int 10)
                           (int 500) medium 0 in
  let idle := mkProduct "OUT-002" "Desk Mat" (int 0) (int 0) (int 7) (int 10)
                        (int 500) medium 0 in
  SpikeDetails.stockDepletion
    (Simulation.spikeDetails (simulation selling (int 3) (int 10))) = PInf /\
  serialized_stockDepletion (simulation selling (int 3) (int 10)) = JNull /\
  SpikeDetails.stockDepletion
    (Simulation.spikeDetails (simulation idle (int 3) (int 10))) = NaN /\
  serialized_stockDepletion (simulation idle (int 3) (int 10)) = JNull /\
  (exists body,
     simulateDemandSpike (answering [selling])
       (mkRequest (Some "OUT-001"%string) (Some (int 3)) (Some (int 10)))
     = Status200 body).
Proof.
  cbv zeta. repeat split; try (vm_compute; reflexivity).
  eexists. vm_compute. reflexivity.
Qed.

(** The days-remaining of the projection and of the analysis are tagged. *)
Lemma unlimited_is_tagged_after_spike_and_in_analysis (p : Product) (m d : num) :
  AfterSpike.daysRemaining (Simulation.afterSpike (simulation p m d)) <> VNum PInf /\
  Analysis.daysRemaining (analyze p) <> VNum PInf.
Proof.
  cbn [simulation Simulation.afterSpike AfterSpike.daysRemaining
         analyze Analysis.daysRemaining].
  unfold tagUnlimited. split.
  - destruct (eqb (spike_daysRemaining p m d) PInf) eqn:E; [discriminate|].
    intro H. injection H as H. rewrite H in E. discriminate.
  - destruct (eqb (calculateDaysOfStockRemaining _ _) PInf) eqn:E; [discriminate|].
    intro H. injection H as H. rewrite H in E. discriminate.
Qed.

(** The 'original' snapshot is not: with averageDailySales = 0 it holds the
    raw Infinity. *)
Lemma original_snapshot_holds_raw_infinity (p : Product) (m d : num) :
  averageDailySales p = int 0 ->
  Original.daysRemaining (Simulation.original (simulation p m d)) = VNum PInf /\
  serialized_original_daysRemaining (simulation p m d) = JNull.
Proof.
  intro H. unfold serialized_original_daysRemaining.
  cbn [simulation Simulation.original Original.daysRemaining].
  unfold normalDailySales, calculateDaysOfStockRemaining. rewrite H.
  split; reflexivity.
Qed.

(** C8, on the code.  For a product that does not sell, the simulation tags
    the unlimited days-remaining of the afterSpike projection as 'Unlimited'
    but leaves the raw Infinity in the 'original' snapshot, which the response
    serializes as null. *)
Theorem original_days_remaining_is_not_tagged :
  let idle := mkProduct "SLOW-001" "Display Stand" (int 60) (int 0) (int 4)
                        (int 40) (int 899) low 0 in
  let response := simulation idle (int 3) (int 10) in
  serialized_analysis_daysRemaining (analyze idle) = JString "Unlimited" /\
  serialized_afterSpike_daysRemaining response = JString "Unlimited" /\
  Original.daysRemaining (Simulation.original response) = VNum PInf /\
  serialized_original_daysRemaining response = JNull /\
  serialized_original_daysRemaining response <> JString "Unlimited".
Proof.
  cbv zeta. repeat split; try (vm_compute; reflexivity).
  vm_compute. discriminate.
Qed.

(** * Further properties of the handlers and of the pages that call them *)

(** Bridges between the predicates on numbers and the order of [Qc]. *)
Ltac to_Q :=
  unfold Qcle, Qclt, Qcminus in *;
  repeat (progress
            (rewrite ?this_plus, ?this_mult, ?this_opp, ?this_ofZ, ?this_Q2Qc in * )).

(** ** The comparator of the ranking *)

(** X1.  The comparator of the analysis sort is a consistent comparison:
    swapping its arguments negates the result, "not after" is transitive, and
    it answers 0 exactly for two results that agree on needsReorder and on
    criticality. *)
Theorem comparator_consistent :
  (forall a b, comparator b a = (- comparator a b)%Z) /\
  (forall a b c,
     (comparator a b <= 0)%Z -> (comparator b c <= 0)%Z -> (comparator a c <= 0)%Z) /\
  (forall a b, comparator a b = 0%Z <-> tied a b = true).
Proof.
  split; [|split].
  - intros a b. unfold comparator.
    destruct (Analysis.needsReorder a), (Analysis.needsReorder b); cbn; lia.
  - intros a b c. rewrite !comparator_urgency. lia.
  - intros a b. unfold comparator, tied.
    destruct (Analysis.needsReorder a), (Analysis.needsReorder b);
      destruct (criticality (Analysis.product a)),
               (criticality (Analysis.product b));
      cbn; split; first [reflexivity | discriminate | lia].
Qed.

(** ** What the analysis keeps of its input *)

Lemma analyze_product (p : Product) : Analysis.product (analyze p) = p.
Proof. reflexivity. Qed.

(** X2.  The analysis drops and repeats nothing: the products carried by the
    rows of the response are the stored products, rearranged, and each row is
    the analysis of the product it carries. *)
Theorem analyzeAll_keeps_every_product (products : list Product) :
  Permutation products (map Analysis.product (analyzeAll products)) /\
  List.length (analyzeAll products) = List.length products /\
  (forall row, In row (analyzeAll products) -> row = analyze (Analysis.product row)).
Proof.
  assert (Hperm : Permutation (map analyze products) (analyzeAll products)).
  { unfold analyzeAll. apply Array_sort_perm. }
  split; [|split].
  - apply (Permutation_map Analysis.product) in Hperm.
    rewrite map_map in Hperm. rewrite map_ext with (g := fun p => p) in Hperm
      by (intro; reflexivity).
    rewrite map_id in Hperm. exact Hperm.
  - apply Permutation_length in Hperm. rewrite length_map in Hperm.
    symmetry. exact Hperm.
  - intros row Hin.
    apply (Permutation_in row (Permutation_sym Hperm)) in Hin.
    apply in_map_iff in Hin. destruct Hin as [p [<- _]]. reflexivity.
Qed.

(** X3.  The response of the analysis is already in the order of its own
    comparator: sorting it again changes nothing. *)
Theorem analyzeAll_sort_idempotent (products : list Product) :
  Array_sort comparator (analyzeAll products) = analyzeAll products.
Proof.
  symmetry.
  apply (Array_sort_unique comparator urgency comparator_urgency).
  - unfold analyzeAll. apply Array_sort_sorted. exact comparator_urgency.
  - intro k. reflexivity.
Qed.

(** ** Order facts about the spike projection *)

Lemma Qc_mult_nonneg (a b : Qc) : 0 <= a -> 0 <= b -> 0 <= a * b.
Proof.
  intros Ha Hb. to_Q. apply Qmult_le_0_compat; assumption.
Qed.

Lemma Qc_div_le_mono (s s' a a' : Qc) :
  0 <= s' -> s' <= s -> 0 < a -> a <= a' -> s' / a' <= s / a.
Proof.
  intros Hs' Hs Ha Ha'.
  assert (Ha'pos : 0 < a') by (eapply Qclt_le_trans; eassumption).
  assert (Hne : a <> 0) by (intro E; subst a; exact (Qclt_not_eq _ _ Ha eq_refl)).
  assert (Hne' : a' <> 0) by (intro E; subst a'; exact (Qclt_not_eq _ _ Ha'pos eq_refl)).
  apply Qcmult_lt_0_le_reg_r with (z := a * a').
  - to_Q. apply Qmult_lt_0_compat; assumption.
  - replace (s' / a' * (a * a')) with (s' * a) by (field; exact Hne').
    replace (s / a * (a * a')) with (s * a') by (field; exact Hne).
    to_Q. nra.
Qed.

Lemma Qc_floor_mono (x y : Qc) : x <= y -> Qc_floor x <= Qc_floor y.
Proof.
  intro H. unfold Qc_floor. apply (proj1 (ofZ_le _ _)). apply Qfloor_resp_le. exact H.
Qed.

(** The consts of the projection for finite inputs. *)
Lemma spike_values (p : Product) (s a qm qd : Qc) :
  currentStock p = Fin s -> averageDailySales p = Fin a ->
  totalSpikeConsumption p (Fin qm) (Fin qd) = Fin (a * qm * qd) /\
  stockAfterSpike p (Fin qm) (Fin qd)
    = Fin (if Qc_leb 0 (s - a * qm * qd) then s - a * qm * qd else 0) /\
  newAverageDailySales p (Fin qm) (Fin qd)
    = Fin (if Qc_leb (ofZ 30) qd then a * qm
           else (a * (if Qc_leb 0 (ofZ 30 - qd) then ofZ 30 - qd else 0)
                 + a * qm * qd) / ofZ 30).
Proof.
  intros Hs Ha.
  assert (Ht : totalSpikeConsumption p (Fin qm) (Fin qd) = Fin (a * qm * qd)).
  { unfold totalSpikeConsumption, spikedDailySales, normalDailySales.
    rewrite Ha. reflexivity. }
  split; [exact Ht|]. split.
  - unfold stockAfterSpike. rewrite Ht, Hs. cbn [sub neg add].
    apply Math_max_0_fin.
  - unfold newAverageDailySales, spikedDailySales, normalDailySales, normalPeriod,
      totalDays.
    rewrite Ha. cbn [geb leb sub neg add int mul].
    destruct (Qc_leb (ofZ 30) qd); [reflexivity|].
    rewrite Math_max_0_fin. cbn [mul add div int].
    assert (E30 : Qc_eqb (ofZ 30) 0 = false) by reflexivity.
    rewrite E30. reflexivity.
Qed.

(** X4.  A spike never raises the stock: for a product with a non-negative
    stock and sales rate and a positive multiplier and duration, stockAfterSpike
    is a finite number between 0 and currentStock. *)
Theorem spike_never_raises_stock (p : Product) (multiplier duration : num) :
  amount (currentStock p) -> amount (averageDailySales p) ->
  positive_amount multiplier -> positive_amount duration ->
  is_finite (stockAfterSpike p multiplier duration) /\
  leb (int 0) (stockAfterSpike p multiplier duration) = true /\
  leb (stockAfterSpike p multiplier duration) (currentStock p) = true.
Proof.
  intros (s & Hs & Hs0) (a & Ha & Ha0) (qm & -> & Hm) (qd & -> & Hd).
  destruct (spike_values p s a qm qd Hs Ha) as (_ & -> & _).
  assert (Hc : 0 <= a * qm * qd).
  { apply Qc_mult_nonneg; [apply Qc_mult_nonneg|]; try assumption;
      apply Qclt_le_weak; assumption. }
  rewrite Hs. cbn [is_finite leb ltb int]. change (ofZ 0) with 0.
  destruct (Qc_leb 0 (s - a * qm * qd)) eqn:E.
  - apply Qc_leb_iff in E. split; [exact I|]. split; [apply Qc_leb_iff, E|].
    apply Qc_leb_iff. to_Q. lra.
  - split; [exact I|]. split; [apply Qc_leb_iff, Qcle_refl|].
    apply Qc_leb_iff. exact Hs0.
Qed.

Lemma spike_never_raises_stock_witness :
  let p := mkProduct "DEMO-100" "Demo" (int 100) (int 2) (int 7) (int 10)
                     (int 5) medium 0 in
  amount (currentStock p) /\ amount (averageDailySales p) /\
  positive_amount (int 3) /\ positive_amount (int 10) /\
  leb (stockAfterSpike p (int 3) (int 10)) (currentStock p) = true.
Proof.
  intro p.
  assert (H1 : amount (currentStock p)).
  { exists (ofZ 100). split; [reflexivity | apply Qc_leb_iff; reflexivity]. }
  assert (H2 : amount (averageDailySales p)).
  { exists (ofZ 2). split; [reflexivity | apply Qc_leb_iff; reflexivity]. }
  assert (H3 : positive_amount (int 3)).
  { exists (ofZ 3). split; [reflexivity | apply Qc_ltb_iff; reflexivity]. }
  assert (H4 : positive_amount (int 10)).
  { exists (ofZ 10). split; [reflexivity | apply Qc_ltb_iff; reflexivity]. }
  repeat (split; [assumption|]).
  exact (proj2 (proj2 (spike_never_raises_stock p (int 3) (int 10) H1 H2 H3 H4))).
Defined.

Lemma days_fin (s a : Qc) :
  a <> 0 -> calculateDaysOfStockRemaining (Fin s) (Fin a) = Fin (Qc_floor (s / a)).
Proof.
  intro Hne. apply Qc_eqb_false in Hne.
  unfold calculateDaysOfStockRemaining. cbn [eqb int div].
  change (ofZ 0) with 0. rewrite Hne. reflexivity.
Qed.

Lemma round2_mono (x y : Qc) : x <= y -> leb (round2 (Fin x)) (round2 (Fin y)) = true.
Proof.
  intro H. rewrite !round2_fin. cbn [leb]. apply Qc_leb_iff.
  apply Qcmult_lt_0_le_reg_r with (z := ofZ 100).
  - apply Qc_ltb_iff. reflexivity.
  - replace (Qc_floor (x * ofZ 100 + Q2Qc (1 # 2)) / ofZ 100 * ofZ 100)
      with (Qc_floor (x * ofZ 100 + Q2Qc (1 # 2)))
      by (field; exact ofZ_100_nonzero).
    replace (Qc_floor (y * ofZ 100 + Q2Qc (1 # 2)) / ofZ 100 * ofZ 100)
      with (Qc_floor (y * ofZ 100 + Q2Qc (1 # 2)))
      by (field; exact ofZ_100_nonzero).
    apply Qc_floor_mono. to_Q. change (inject_Z 100) with 100%Q. lra.
Qed.

(** ** The two messages of the validation *)

Lemma falsy_or_negative (n : num) :
  truthy n = true -> leb n (int 0) = ltb n (int 0).
Proof.
  destruct n as [q| | |]; cbn; try reflexivity; try discriminate.
  change (ofZ 0) with 0. rewrite negb_true_iff, Qc_eqb_false. intro Hne.
  destruct (Qc_leb q 0) eqn:E.
  - symmetry. apply Qc_ltb_iff. apply Qc_leb_iff in E.
    destruct (Qcle_lt_or_eq _ _ E) as [H | H]; [exact H | contradiction].
  - symmetry. apply Qc_ltb_false. apply Qclt_le_weak, Qc_leb_false, E.
Qed.

(** X8.  The handler has two 400 messages.  A multiplier or duration that is
    the number 0 (or NaN), like an empty productId, is answered "Missing
    required fields", because the first guard tests falsiness; a request whose
    productId is not empty and whose multiplier and duration are numbers other
    than 0 and NaN, one of them negative, is answered "must be positive
    numbers". *)
Theorem validation_messages
    (lookup : string -> Query (option Product)) (body : SpikeRequest) :
  ((exists id, body_productId body = Some id /\ id = ""%string) \/
   (exists m, body_spikeMultiplier body = Some m /\ (m = int 0 \/ m = NaN)) \/
   (exists d, body_spikeDuration body = Some d /\ (d = int 0 \/ d = NaN)) ->
   simulateDemandSpike lookup body =
     Status400 "Missing required fields: productId, spikeMultiplier, spikeDuration") /\
  (forall id m d,
     body = mkRequest (Some id) (Some m) (Some d) ->
     id <> ""%string -> truthy m = true -> truthy d = true ->
     ltb m (int 0) = true \/ ltb d (int 0) = true ->
     simulateDemandSpike lookup body =
       Status400 "spikeMultiplier and spikeDuration must be positive numbers").
Proof.
  split.
  - unfold simulateDemandSpike.
    intros [(id & -> & ->) | [(m & -> & Hm) | (d & -> & Hd)]].
    + reflexivity.
    + assert (E : not_number (Some m) = true) by (destruct Hm; subst m; reflexivity).
      rewrite E, orb_true_r. reflexivity.
    + assert (E : not_number (Some d) = true) by (destruct Hd; subst d; reflexivity).
      rewrite E, orb_true_r. reflexivity.
  - intros id m d -> Hid Hm Hd Hneg. unfold simulateDemandSpike.
    cbn [body_productId body_spikeMultiplier body_spikeDuration
         not_string not_number].
    apply String.eqb_neq in Hid. rewrite Hid, Hm, Hd. cbn [negb orb].
    rewrite (falsy_or_negative m Hm), (falsy_or_negative d Hd).
    apply orb_true_iff in Hneg. rewrite Hneg. reflexivity.
Qed.

Lemma validation_messages_witness :
  let lookup := answering [] in
  let zero := mkRequest (Some "PROD-001"%string) (Some (int 0)) (Some (int 7)) in
  let negative := mkRequest (Some "PROD-001"%string) (Some (int (-2))) (Some (int 7)) in
  simulateDemandSpike lookup zero =
    Status400 "Missing required fields: productId, spikeMultiplier, spikeDuration" /\
  simulateDemandSpike lookup negative =
    Status400 "spikeMultiplier and spikeDuration must be positive numbers".
Proof.
  intros lookup zero negative. split.
  - apply (proj1 (validation_messages lookup zero)).
    right. left. exists (int 0). split; [reflexivity | left; reflexivity].
  - apply (proj2 (validation_messages lookup negative)
             "PROD-001"%string (int (-2)) (int 7)).
    + reflexivity.
    + discriminate.
    + reflexivity.
    + reflexivity.
    + left. reflexivity.
Defined.

(** ** The numbers of the responses *)

Lemma round2_not_finite (x : num) : ~ is_finite x -> ~ is_finite (round2 x).
Proof. destruct x; cbn; tauto. Qed.

Lemma stringify_num_null (x : num) : stringify_num x = JNull <-> ~ is_finite x.
Proof.
  destruct x; cbn; split.
  - discriminate.
  - intro H. exfalso. apply H. exact I.
  - intros _ H. exact H.
  - reflexivity.
  - intros _ H. exact H.
  - reflexivity.
  - intros _ H. exact H.
  - reflexivity.
Qed.

Lemma div_by_zero_not_finite (c : Qc) : ~ is_finite (div (Fin c) (Fin 0)).
Proof.
  cbn. destruct (Qc_sign c); cbn; tauto.
Qed.

Lemma mul_100_not_finite (x : num) : ~ is_finite x -> ~ is_finite (mul x (int 100)).
Proof. destruct x; cbn; tauto. Qed.

(** X9.  For a product and a request whose numbers are finite, a product
    with averageDailySales = 0 or with currentStock = 0 always gets a
    simulation response that holds a number which is not finite, written as
    null: the days remaining of the 'original' snapshot in the first case, the
    stockDepletion in the second. *)
Theorem zero_sales_or_stock_puts_null_in_response
    (p : Product) (multiplier duration : num) :
  is_finite (currentStock p) -> is_finite (averageDailySales p) ->
  is_finite multiplier -> is_finite duration ->
  averageDailySales p = int 0 \/ currentStock p = int 0 ->
  In JNull (simulation_json_numbers (simulation p multiplier duration)).
Proof.
  intros Hs Ha Hm Hd Hzero.
  destruct (currentStock p) as [s| | |] eqn:Es; try contradiction.
  destruct (averageDailySales p) as [a| | |] eqn:Ea; try contradiction.
  destruct multiplier as [qm| | |]; try contradiction.
  destruct duration as [qd| | |]; try contradiction.
  destruct (spike_values p s a qm qd Es Ea) as (Ht & _ & _).
  unfold simulation_json_numbers.
  cbn [simulation Simulation.original Simulation.spikeDetails
         Original.daysRemaining SpikeDetails.stockDepletion].
  unfold normalDailySales. rewrite Ht, Es, Ea.
  destruct Hzero as [E | E]; injection E as ->.
  - right. right. left. reflexivity.
  - do 11 right. left.
    apply stringify_num_null, round2_not_finite, mul_100_not_finite.
    apply div_by_zero_not_finite.
Qed.

Lemma zero_sales_or_stock_puts_null_in_response_witness :
  let p := mkProduct "OUT-001" "Desk Lamp" (int 0) (int 2) (int 7) (int 10)
                     (int 500) medium 0 in
  is_finite (currentStock p) /\ is_finite (averageDailySales p) /\
  is_finite (int 3) /\ is_finite (int 10) /\
  (averageDailySales p = int 0 \/ currentStock p = int 0) /\
  In JNull (simulation_json_numbers (simulation p (int 3) (int 10))).
Proof.
  intro p.
  assert (H : averageDailySales p = int 0 \/ currentStock p = int 0)
    by (right; reflexivity).
  repeat (split; [exact I|]). split; [exact H|].
  exact (zero_sales_or_stock_puts_null_in_response p (int 3) (int 10) I I I I H).
Defined.

Lemma round2_int (k : Z) : round2 (int k) = int k.
Proof.
  unfold int. rewrite round2_fin. f_equal.
  assert (E : Qc_floor (ofZ k * ofZ 100 + Q2Qc (1 # 2)) = ofZ (k * 100)).
  { unfold Qc_floor. f_equal. symmetry. apply floor_of_unique. split.
    - to_Q. rewrite inject_Z_mult. change (inject_Z 100) with 100%Q. lra.
    - to_Q. rewrite inject_Z_mult. change (inject_Z 100) with 100%Q.
      change (this 1) with 1%Q. lra. }
  rewrite E. apply Qc_is_canon. unfold Qcdiv, Qcinv. to_Q.
  rewrite inject_Z_mult. change (inject_Z 100) with 100%Q. field.
Qed.

(** X10.  For a product with stock (and a non-negative sales rate), the
    stockDepletion of a simulation is never negative, and it is at least 100
    whenever the projection reports the stock as exhausted
    (stockAfterSpike = 0). *)
Theorem exhausted_stock_is_fully_depleted
    (p : Product) (multiplier duration : num) :
  positive_amount (currentStock p) -> amount (averageDailySales p) ->
  positive_amount multiplier -> positive_amount duration ->
  leb (int 0)
      (SpikeDetails.stockDepletion
         (Simulation.spikeDetails (simulation p multiplier duration))) = true /\
  (stockAfterSpike p multiplier duration = int 0 ->
   leb (int 100)
       (SpikeDetails.stockDepletion
          (Simulation.spikeDetails (simulation p multiplier duration))) = true).
Proof.
  intros (s & Hs & Hspos) (a & Ha & Ha0) (qm & -> & Hm) (qd & -> & Hd).
  destruct (spike_values p s a qm qd Hs Ha) as (Ht & Hstock & _).
  cbn [simulation Simulation.spikeDetails SpikeDetails.stockDepletion].
  rewrite Ht, Hs, Hstock. cbn [div].
  assert (Hne : s <> 0) by (intro E; subst s; exact (Qclt_not_eq _ _ Hspos eq_refl)).
  assert (E : Qc_eqb s 0 = false) by (apply Qc_eqb_false; exact Hne).
  rewrite E. cbn [mul int].
  set (c := a * qm * qd).
  assert (Hc : 0 <= c).
  { unfold c. apply Qc_mult_nonneg; [apply Qc_mult_nonneg|]; try assumption;
      apply Qclt_le_weak; assumption. }
  assert (Hratio : c / s * s = c) by (field; exact Hne).
  assert (Hpct : 0 <= c / s * ofZ 100).
  { apply Qc_mult_nonneg; [apply Qc_div_nonneg|]; try assumption.
    - apply Qclt_le_weak; assumption.
    - apply Qc_leb_iff. reflexivity. }
  split.
  - rewrite <- (round2_int 0). apply round2_mono. exact Hpct.
  - intro Hzero. injection Hzero as Hzero.
    rewrite <- (round2_int 100). apply round2_mono.
    assert (Hcs : s <= c).
    { destruct (Qc_leb 0 (s - c)) eqn:F.
      - assert (Hsc : s = c).
        { replace s with (s - c + c) by ring. rewrite Hzero.
          change (ofZ 0) with 0. ring. }
        rewrite Hsc. apply Qcle_refl.
      - apply Qc_leb_false in F. to_Q. lra. }
    apply Qcmult_lt_0_le_reg_r with (z := s); [exact Hspos|].
    replace (c / s * ofZ 100 * s) with (c / s * s * ofZ 100) by ring.
    rewrite Hratio. to_Q. change (inject_Z 100) with 100%Q. nra.
Qed.

Lemma exhausted_stock_is_fully_depleted_witness :
  let p := mkProduct "DEMO-040" "Demo" (int 40) (int 2) (int 7) (int 10)
                     (int 5) medium 0 in
  positive_amount (currentStock p) /\ amount (averageDailySales p) /\
  positive_amount (int 3) /\ positive_amount (int 10) /\
  stockAfterSpike p (int 3) (int 10) = int 0 /\
  leb (int 100)
      (SpikeDetails.stockDepletion
         (Simulation.spikeDetails (simulation p (int 3) (int 10)))) = true.
Proof.
  intro p.
  assert (H1 : positive_amount (currentStock p)).
  { exists (ofZ 40). split; [reflexivity | apply Qc_ltb_iff; reflexivity]. }
  assert (H2 : amount (averageDailySales p)).
  { exists (ofZ 2). split; [reflexivity | apply Qc_leb_iff; reflexivity]. }
  assert (H3 : positive_amount (int 3)).
  { exists (ofZ 3). split; [reflexivity | apply Qc_ltb_iff; reflexivity]. }
  assert (H4 : positive_amount (int 10)).
  { exists (ofZ 10). split; [reflexivity | apply Qc_ltb_iff; reflexivity]. }
  assert (H5 : stockAfterSpike p (int 3) (int 10) = int 0) by num_compute.
  repeat (split; [assumption|]).
  exact (proj2 (exhausted_stock_is_fully_depleted p (int 3) (int 10)
                  H1 H2 H3 H4) H5).
Defined.

(** ** The pages that show the analysis *)

Lemma filter_length_implied {A : Type} (f g : A -> bool) (l : list A) :
  (forall x, f x = true -> g x = true) ->
  (List.length (filter f l) <= List.length (filter g l))%nat.
Proof.
  intro H. induction l as [|x l IH]; cbn; [lia|].
  destruct (f x) eqn:F.
  - rewrite (H x F). cbn. lia.
  - destruct (g x); cbn; lia.
Qed.

Lemma filter_length_bound {A : Type} (f : A -> bool) (l : list A) :
  (List.length (filter f l) <= List.length l)%nat.
Proof.
  induction l as [|x l IH]; cbn; [lia|]. destruct (f x); cbn; lia.
Qed.

Lemma add_zero_r (x : num) : add x (int 0) = x.
Proof.
  destruct x as [q| | |]; cbn; try reflexivity.
  change (ofZ 0) with 0. rewrite Qcplus_0_r. reflexivity.
Qed.

Lemma total_cost_ignores_filter (l : list Analysis.t) (start : num) :
  (forall row, In row l -> Analysis.needsReorder row = false ->
               Analysis.estimatedCost row = int 0) ->
  fold_left (fun sum item => add sum (Analysis.estimatedCost item))
            (filter Analysis.needsReorder l) start
  = fold_left (fun sum item => add sum (Analysis.estimatedCost item)) l start.
Proof.
  revert start. induction l as [|x l IH]; intros start H; [reflexivity|].
  cbn [filter fold_left].
  assert (Hl : forall row, In row l -> Analysis.needsReorder row = false ->
                           Analysis.estimatedCost row = int 0).
  { intros row Hin. apply H. right. exact Hin. }
  destruct (Analysis.needsReorder x) eqn:F.
  - cbn [fold_left]. apply IH. exact Hl.
  - rewrite (H x (or_introl eq_refl) F), add_zero_r. apply IH. exact Hl.
Qed.

Lemma no_reorder_costs_nothing (p : Product) :
  is_finite (costPerUnit p) -> Analysis.needsReorder (analyze p) = false ->
  Analysis.estimatedCost (analyze p) = int 0.
Proof.
  intros Hc Hflag.
  cbn [analyze Analysis.estimatedCost Analysis.needsReorder] in *.
  rewrite Hflag, (mul_zero_finite _ Hc). apply round2_int.
Qed.

Lemma analyzeAll_rows (products : list Product) (row : Analysis.t) :
  In row (analyzeAll products) -> exists p, In p products /\ row = analyze p.
Proof.
  intro Hin. unfold analyzeAll in Hin.
  apply (Permutation_in row (Permutation_sym (Array_sort_perm comparator _))) in Hin.
  apply in_map_iff in Hin. destruct Hin as [p [<- Hp]]. eauto.
Qed.

(** X12.  The summary of the analysis page: the critical reorders are at most
    the reorders, which are at most the products, one per stored product; and
    over the server's response (products with finite numbers) the total
    reorder cost is the sum of the estimatedCost of all rows, the rows without
    a reorder adding 0. *)
Theorem summary_counts_and_total (products : list Product) :
  (Summary.criticalReorders (summary (analyzeAll products))
   <= Summary.needsReorder (summary (analyzeAll products)))%nat /\
  (Summary.needsReorder (summary (analyzeAll products))
   <= Summary.totalProducts (summary (analyzeAll products)))%nat /\
  Summary.totalProducts (summary (analyzeAll products)) = List.length products /\
  ((forall p, In p products -> finite_fields p) ->
   Summary.totalReorderCost (summary (analyzeAll products))
   = fold_left (fun sum item => add sum (Analysis.estimatedCost item))
               (analyzeAll products) (int 0)).
Proof.
  cbn [summary Summary.criticalReorders Summary.needsReorder Summary.totalProducts
         Summary.totalReorderCost].
  split; [|split; [|split]].
  - apply filter_length_implied. intros x H.
    apply andb_true_iff in H. exact (proj1 H).
  - apply filter_length_bound.
  - unfold analyzeAll.
    rewrite <- (Permutation_length (Array_sort_perm comparator _)).
    apply length_map.
  - intro Hcost. apply total_cost_ignores_filter.
    intros row Hin Hflag.
    destruct (analyzeAll_rows products row Hin) as [p [Hp ->]].
    apply no_reorder_costs_nothing; [apply (Hcost p Hp) | exact Hflag].
Qed.

Lemma summary_counts_and_total_witness :
  let calm := mkProduct "PROD-005" "Laptop Screen Protector" (int 25) (dec 8 10)
                        (int 10) (int 20) (int 1349) low 0 in
  let speaker := mkProduct "LOW-001" "Portable Speaker" (int 8) (dec 45 10)
                           (int 9) (int 20) (int 2949) high 0 in
  let products := [calm; speaker] in
  (forall p, In p products -> finite_fields p) /\
  Summary.totalReorderCost (summary (analyzeAll products))
  = fold_left (fun sum item => add sum (Analysis.estimatedCost item))
              (analyzeAll products) (int 0).
Proof.
  intros calm speaker products.
  assert (H : forall p, In p products -> finite_fields p).
  { intros p [<- | [<- | []]]; repeat split. }
  split; [exact H|].
  exact (proj2 (proj2 (proj2 (summary_counts_and_total products))) H).
Defined.

Lemma urgency_of_reorder (a : Analysis.t) :
  Analysis.needsReorder a = true <-> (4 <= urgency a)%Z.
Proof.
  unfold urgency.
  destruct (Analysis.needsReorder a), (criticality (Analysis.product a));
    cbn; split; intro H; first [reflexivity | lia | discriminate H].
Qed.

Lemma ranked_reorders_first (l : list Analysis.t) :
  StronglySorted (fun a b => (urgency b <= urgency a)%Z) l ->
  filter Analysis.needsReorder l
  ++ filter (fun a => negb (Analysis.needsReorder a)) l = l.
Proof.
  induction l as [|x l IH]; intro Hs; [reflexivity|].
  apply StronglySorted_inv in Hs. destruct Hs as [Hs Hall].
  cbn [filter]. destruct (Analysis.needsReorder x) eqn:F; cbn [negb].
  - cbn [app]. f_equal. apply IH, Hs.
  - assert (Hnone : forall y, In y l -> Analysis.needsReorder y = false).
    { intros y Hy. rewrite Forall_forall in Hall. specialize (Hall y Hy).
      destruct (Analysis.needsReorder y) eqn:Fy; [|reflexivity].
      apply urgency_of_reorder in Fy.
      assert (Hx : ~ (4 <= urgency x)%Z).
      { intro H. apply urgency_of_reorder in H. congruence. }
      lia. }
    assert (E1 : filter Analysis.needsReorder l = []).
    { clear -Hnone. induction l as [|y l IHl]; [reflexivity|].
      cbn [filter]. rewrite (Hnone y (or_introl eq_refl)).
      apply IHl. intros z Hz. apply Hnone. right. exact Hz. }
    assert (E2 : filter (fun a => negb (Analysis.needsReorder a)) l = l).
    { clear -Hnone. induction l as [|y l IHl]; [reflexivity|].
      cbn [filter]. rewrite (Hnone y (or_introl eq_refl)). cbn [negb].
      f_equal. apply IHl. intros z Hz. apply Hnone. right. exact Hz. }
    rewrite E1, E2. reflexivity.
Qed.

Lemma firstn_of_prefix {A : Type} (n : nat) (l1 l2 : list A) :
  firstn n l1 = firstn (Nat.min n (List.length l1)) (l1 ++ l2).
Proof.
  rewrite firstn_app.
  replace (Nat.min n (List.length l1) - List.length l1)%nat with 0%nat by lia.
  cbn [firstn]. rewrite app_nil_r.
  destruct (Nat.le_ge_cases n (List.length l1)) as [H | H].
  - rewrite Nat.min_l by exact H. reflexivity.
  - rewrite Nat.min_r by exact H.
    rewrite firstn_all. apply firstn_all2. exact H.
Qed.

(** X13.  On the server's response the "Urgent Reorders" of the dashboard are
    the first rows of the ranking: the reorder rows form the head of the
    response, and the list shows its first three (all of them when there are
    fewer). *)
Theorem urgent_reorders_are_the_top_rows (products : list Product) :
  filter Analysis.needsReorder (analyzeAll products)
  = firstn (Summary.needsReorder (summary (analyzeAll products)))
           (analyzeAll products) /\
  urgentReorders (analyzeAll products)
  = firstn (Nat.min 3 (Summary.needsReorder (summary (analyzeAll products))))
           (analyzeAll products).
Proof.
  assert (Hsplit := ranked_reorders_first (analyzeAll products)
            (Array_sort_sorted comparator urgency comparator_urgency _)).
  cbn [summary Summary.needsReorder]. unfold urgentReorders.
  set (out := analyzeAll products) in *.
  set (front := filter Analysis.needsReorder out) in *.
  split.
  - rewrite <- Hsplit at 1. rewrite firstn_app, Nat.sub_diag, firstn_all.
    cbn [firstn]. rewrite app_nil_r. reflexivity.
  - rewrite <- Hsplit at 1. apply firstn_of_prefix.
Qed.

Lemma floor_le_iff (s a : Qc) (k : Z) :
  0 < a -> (Qc_leb (Qc_floor (s / a)) (ofZ k) = Qc_ltb s (ofZ (k + 1) * a)).
Proof.
  intro Ha.
  assert (Hne : a <> 0) by (intro E; subst a; exact (Qclt_not_eq _ _ Ha eq_refl)).
  assert (Hq : s / a * a = s) by (field; exact Hne).
  pose proof (Qc_floor_le (s / a)) as Hfl.
  pose proof (Qc_lt_floor (s / a)) as Hfu.
  destruct (Qc_ltb s (ofZ (k + 1) * a)) eqn:E.
  - apply Qc_ltb_iff in E. apply Qc_leb_iff.
    assert (Hlt : s / a < ofZ (k + 1)).
    { destruct (Qclt_le_dec (s / a) (ofZ (k + 1))) as [H | H]; [exact H|].
      exfalso. apply (Qclt_not_le _ _ E). rewrite <- Hq.
      apply Qcmult_le_compat_r; [exact H | apply Qclt_le_weak, Ha]. }
    unfold Qc_floor in *. apply (proj1 (ofZ_le _ _)).
    assert (Hz : (Qfloor (s / a)%Qc < k + 1)%Z).
    { apply ofZ_lt. eapply Qcle_lt_trans; eassumption. }
    lia.
  - apply Qc_ltb_false in E. apply Qc_leb_false.
    assert (Hge : ofZ (k + 1) <= s / a).
    { apply Qcmult_lt_0_le_reg_r with (z := a); [exact Ha|]. rewrite Hq. exact E. }
    unfold Qc_floor in *. apply (proj1 (ofZ_lt _ _)).
    assert (Hz : (k + 1 < Qfloor (s / a)%Qc + 1)%Z).
    { apply ofZ_lt. rewrite (ofZ_plus (Qfloor _) 1).
      eapply Qcle_lt_trans; eassumption. }
    lia.
Qed.

(** X14.  For a product that sells (averageDailySales > 0, finite stock) the
    urgency badge of its analysis row is decided by the stock against the
    daily sales: OK without a reorder need, and otherwise OUT OF STOCK below
    one day of sales (even with units left), URGENT below four days, HIGH
    below eight, MEDIUM from there on. *)
Theorem urgency_badge_by_stock
    (StringToNumber : string -> num) (p : Product) (s a : Qc) :
  currentStock p = Fin s -> averageDailySales p = Fin a -> 0 < a ->
  UrgencyBadge StringToNumber
    (Analysis.daysRemaining (analyze p)) (Analysis.needsReorder (analyze p))
  = if negb (Analysis.needsReorder (analyze p)) then badge_OK
    else if Qc_ltb s a then badge_OUT_OF_STOCK
    else if Qc_ltb s (ofZ 4 * a) then badge_URGENT
    else if Qc_ltb s (ofZ 8 * a) then badge_HIGH
    else badge_MEDIUM.
Proof.
  intros Hs Ha Hpos.
  assert (Hne : a <> 0) by (intro E; subst a; exact (Qclt_not_eq _ _ Hpos eq_refl)).
  cbn [analyze Analysis.daysRemaining Analysis.needsReorder].
  rewrite Hs, Ha, (days_fin s a Hne).
  unfold UrgencyBadge. cbn [tagUnlimited eqb ToNumber leb int].
  rewrite (floor_le_iff s a 0 Hpos), (floor_le_iff s a 3 Hpos),
    (floor_le_iff s a 7 Hpos).
  cbn [Z.add Pos.add Pos.succ].
  replace (ofZ 1 * a) with a by (change (ofZ 1) with 1; ring).
  reflexivity.
Qed.

Lemma urgency_badge_by_stock_witness :
  let p := mkProduct "PROD-009" "Bluetooth Speaker Portable" (int 3) (dec 45 10)
                     (int 9) (int 20) (int 2949) high 0 in
  currentStock p = Fin (ofZ 3) /\ averageDailySales p = Fin (Q2Qc (45 # 10)) /\
  0 < Q2Qc (45 # 10) /\
  UrgencyBadge (fun _ => NaN)
    (Analysis.daysRemaining (analyze p)) (Analysis.needsReorder (analyze p))
  = badge_OUT_OF_STOCK.
Proof.
  intro p.
  assert (H1 : currentStock p = Fin (ofZ 3)) by reflexivity.
  assert (H2 : averageDailySales p = Fin (Q2Qc (45 # 10))) by reflexivity.
  assert (H3 : 0 < Q2Qc (45 # 10)) by (apply Qc_ltb_iff; reflexivity).
  repeat (split; [assumption|]).
  rewrite (urgency_badge_by_stock (fun _ => NaN) p _ _ H1 H2 H3). reflexivity.
Defined.

(** ** The health check *)

(** X16.  The health check names the four connection states and nothing
    else: the status text is 'unknown' exactly for a readyState outside
    0..3, and two states reported with the same text are the same state
    unless both are outside 0..3. *)
Theorem database_status_identifies_state :
  (forall n : Z, database_status n = "unknown"%string <-> ~ (0 <= n <= 3)%Z) /\
  (forall n m : Z, (0 <= n <= 3)%Z -> database_status n = database_status m -> n = m).
Proof.
  assert (Hout : forall n : Z, ~ (0 <= n <= 3)%Z -> database_status n = "unknown"%string).
  { intros n Hn. unfold database_status, dbStatusText.
    destruct n as [|q|q]; [lia| |reflexivity].
    destruct q as [[q|q|]|[q|q|]|]; first [reflexivity | lia]. }
  assert (Hin : forall n : Z, (0 <= n <= 3)%Z ->
            n = 0%Z \/ n = 1%Z \/ n = 2%Z \/ n = 3%Z) by (intros; lia).
  split.
  - intro n. split.
    + intros E Hn.
      destruct (Hin n Hn) as [-> | [-> | [-> | ->]]]; discriminate E.
    + apply Hout.
  - intros n m Hn E.
    destruct (Hin n Hn) as [-> | [-> | [-> | ->]]];
      (destruct (Z_le_dec 0 m) as [H0 |]; [destruct (Z_le_dec m 3) as [H3 |]|];
       [ destruct (Hin m (conj H0 H3)) as [-> | [-> | [-> | ->]]];
         first [reflexivity | discriminate E]
       | rewrite (Hout m) in E by lia; discriminate E
       | rewrite (Hout m) in E by lia; discriminate E ]).
Qed.

Lemma database_status_identifies_state_witness :
  (0 <= 1 <= 3)%Z /\ database_status 1 = "connected"%string /\
  (database_status 1 = database_status 1 -> 1%Z = 1%Z).
Proof.
  assert (H : (0 <= 1 <= 3)%Z) by lia.
  split; [exact H|]. split; [reflexivity|].
  exact (proj2 database_status_identifies_state 1%Z 1%Z H).
Defined.

(** ** How the projection and the decision react to their inputs *)

(** X17.  A stronger or longer spike never projects more stock: with
    multipliers 0 < m <= m' and durations 0 < d <= d', the stockAfterSpike of
    the simulation with (m', d') is at most that of the simulation with
    (m, d). *)
Theorem stronger_spike_projects_less_stock (p : Product) (m m' d d' : Qc) :
  amount (currentStock p) -> amount (averageDailySales p) ->
  0 < m -> m <= m' -> 0 < d -> d <= d' ->
  leb (stockAfterSpike p (Fin m') (Fin d')) (stockAfterSpike p (Fin m) (Fin d)) = true.
Proof.
  intros (s & Hs & Hs0) (a & Ha & Ha0) Hm Hmm Hd Hdd.
  assert (Hd' : 0 < d') by (eapply Qclt_le_trans; eassumption).
  assert (Hc : a * m * d <= a * m' * d').
  { apply Qcle_trans with (y := a * m * d').
    - rewrite <- !Qcmult_assoc. rewrite (Qcmult_comm a (m * d)), (Qcmult_comm a (m * d')).
      apply Qcmult_le_compat_r; [|exact Ha0].
      rewrite (Qcmult_comm m d), (Qcmult_comm m d').
      apply Qcmult_le_compat_r; [exact Hdd | apply Qclt_le_weak, Hm].
    - apply Qcmult_le_compat_r; [|apply Qclt_le_weak, Hd'].
      rewrite (Qcmult_comm a m), (Qcmult_comm a m').
      apply Qcmult_le_compat_r; assumption. }
  destruct (spike_values p s a m d Hs Ha) as (_ & -> & _).
  destruct (spike_values p s a m' d' Hs Ha) as (_ & -> & _).
  cbn [leb]. apply Qc_leb_iff.
  destruct (Qc_leb 0 (s - a * m * d)) eqn:E, (Qc_leb 0 (s - a * m' * d')) eqn:E';
    rewrite ?Qc_leb_iff, ?Qc_leb_false in *.
  - to_Q. lra.
  - exact E.
  - exfalso. to_Q. lra.
  - apply Qcle_refl.
Qed.

Lemma stronger_spike_projects_less_stock_witness :
  let p := mkProduct "DEMO-100" "Demo" (int 100) (int 2) (int 7) (int 10)
                     (int 5) medium 0 in
  amount (currentStock p) /\ amount (averageDailySales p) /\
  0 < ofZ 2 /\ ofZ 2 <= ofZ 3 /\ 0 < ofZ 7 /\ ofZ 7 <= ofZ 10 /\
  leb (stockAfterSpike p (Fin (ofZ 3)) (Fin (ofZ 10)))
      (stockAfterSpike p (Fin (ofZ 2)) (Fin (ofZ 7))) = true.
Proof.
  intro p.
  assert (H1 : amount (currentStock p)).
  { exists (ofZ 100). split; [reflexivity | apply Qc_leb_iff; reflexivity]. }
  assert (H2 : amount (averageDailySales p)).
  { exists (ofZ 2). split; [reflexivity | apply Qc_leb_iff; reflexivity]. }
  assert (H3 : 0 < ofZ 2) by (apply Qc_ltb_iff; reflexivity).
  assert (H4 : ofZ 2 <= ofZ 3) by (apply Qc_leb_iff; reflexivity).
  assert (H5 : 0 < ofZ 7) by (apply Qc_ltb_iff; reflexivity).
  assert (H6 : ofZ 7 <= ofZ 10) by (apply Qc_leb_iff; reflexivity).
  repeat (split; [assumption|]).
  exact (stronger_spike_projects_less_stock p _ _ _ _ H1 H2 H3 H4 H5 H6).
Defined.

(** X18.  The decision follows the stock: of two products with the same
    sales rate (not negative) and lead time, the one with less stock has no
    more days remaining, and needs a reorder whenever the other does. *)
Theorem less_stock_never_clears_alert (p p' : Product) :
  averageDailySales p = averageDailySales p' ->
  supplierLeadTime p = supplierLeadTime p' ->
  amount (averageDailySales p) ->
  amount (currentStock p) -> is_finite (currentStock p') ->
  leb (currentStock p) (currentStock p') = true ->
  leb (calculateDaysOfStockRemaining (currentStock p) (averageDailySales p))
      (calculateDaysOfStockRemaining (currentStock p') (averageDailySales p')) = true /\
  (Analysis.needsReorder (analyze p') = true ->
   Analysis.needsReorder (analyze p) = true).
Proof.
  intros Eavg Elead (a & Ha & Ha0) (s & Hs & Hs0) Hs' Hle.
  destruct (currentStock p') as [s'| | |] eqn:Es'; try contradiction.
  rewrite Hs in Hle. cbn [leb] in Hle. apply Qc_leb_iff in Hle.
  assert (Hdays :
    leb (calculateDaysOfStockRemaining (Fin s) (Fin a))
        (calculateDaysOfStockRemaining (Fin s') (Fin a)) = true).
  { destruct (Qc_eq_dec a 0) as [-> | Hne]; [reflexivity|].
    assert (Hpos : 0 < a).
    { destruct (Qcle_lt_or_eq _ _ Ha0) as [H | H]; [exact H | congruence]. }
    rewrite (days_fin s a Hne), (days_fin s' a Hne). cbn [leb].
    apply Qc_leb_iff, Qc_floor_mono, Qc_div_le_mono;
      [assumption | assumption | assumption | apply Qcle_refl]. }
  rewrite <- Eavg, Hs, Ha. split; [exact Hdays|].
  cbn [analyze Analysis.needsReorder]. unfold needsReorder.
  rewrite <- Eavg, <- Elead, Hs, Es', Ha.
  intro Hflag. eapply leb_trans; eassumption.
Qed.

Lemma less_stock_never_clears_alert_witness :
  let p := mkProduct "LOW-001" "Portable Speaker" (int 8) (dec 45 10) (int 9)
                     (int 20) (int 2949) high 0 in
  let p' := mkProduct "LOW-002" "Portable Speaker" (int 40) (dec 45 10) (int 9)
                      (int 20) (int 2949) high 0 in
  averageDailySales p = averageDailySales p' /\
  supplierLeadTime p = supplierLeadTime p' /\
  amount (averageDailySales p) /\ amount (currentStock p) /\
  is_finite (currentStock p') /\
  leb (currentStock p) (currentStock p') = true /\
  Analysis.needsReorder (analyze p') = true /\
  Analysis.needsReorder (analyze p) = true.
Proof.
  intros p p'.
  assert (H1 : averageDailySales p = averageDailySales p') by reflexivity.
  assert (H2 : supplierLeadTime p = supplierLeadTime p') by reflexivity.
  assert (H3 : amount (averageDailySales p)).
  { exists (Q2Qc (45 # 10)). split; [reflexivity | apply Qc_leb_iff; reflexivity]. }
  assert (H4 : amount (currentStock p)).
  { exists (ofZ 8). split; [reflexivity | apply Qc_leb_iff; reflexivity]. }
  assert (H5 : is_finite (currentStock p')) by exact I.
  assert (H6 : leb (currentStock p) (currentStock p') = true) by reflexivity.
  assert (H7 : Analysis.needsReorder (analyze p') = true) by reflexivity.
  repeat (split; [assumption|]).
  exact (proj2 (less_stock_never_clears_alert p p' H1 H2 H3 H4 H5 H6) H7).
Defined.

(** ** Instances *)

Lemma comparator_consistent_witness :
  let idle := analyze (mkProduct "PROD-005" "Laptop Screen Protector" (int 25)
                                 (dec 8 10) (int 10) (int 20) (int 1349) low 0) in
  let low_stock := analyze (mkProduct "LOW-001" "Portable Speaker" (int 8)
                                      (dec 45 10) (int 9) (int 20) (int 2949) high 0) in
  (comparator low_stock idle <= 0)%Z /\ (comparator idle idle <= 0)%Z /\
  (comparator low_stock idle <= 0)%Z /\ tied idle idle = true /\
  comparator idle idle = 0%Z.
Proof.
  intros idle low_stock.
  assert (H1 : (comparator low_stock idle <= 0)%Z) by (vm_compute; discriminate).
  assert (H2 : (comparator idle idle <= 0)%Z) by (vm_compute; discriminate).
  assert (H3 : tied idle idle = true) by reflexivity.
  split; [exact H1|]. split; [exact H2|]. split.
  - exact (proj1 (proj2 comparator_consistent) low_stock idle idle H1 H2).
  - split; [exact H3|].
    exact (proj2 (proj2 (proj2 comparator_consistent) idle idle) H3).
Defined.

Lemma analyzeAll_keeps_every_product_witness :
  let calm := mkProduct "PROD-005" "Laptop Screen Protector" (int 25) (dec 8 10)
                        (int 10) (int 20) (int 1349) low 0 in
  let speaker := mkProduct "LOW-001" "Portable Speaker" (int 8) (dec 45 10)
                           (int 9) (int 20) (int 2949) high 0 in
  In (analyze speaker) (analyzeAll [calm; speaker]) /\
  analyze speaker = analyze (Analysis.product (analyze speaker)).
Proof.
  intros calm speaker.
  assert (H : In (analyze speaker) (analyzeAll [calm; speaker])).
  { left. vm_compute. reflexivity. }
  split; [exact H|].
  exact (proj2 (proj2 (analyzeAll_keeps_every_product [calm; speaker]))
           (analyze speaker) H).
Defined.
